(** * Certificate revocation command: reason codes, client resolution, dispatch

    A shallow embedding of [command/ca/revoke.go].  Go strings are byte
    sequences and are modelled as [string]; Go's [int] is the 64-bit signed
    integer and is modelled as [Z] together with its range.  Collaborators
    that live outside the file (the token parser, the PEM readers, the CA
    client, the file system) are fields of a [World] record. *)

From Stdlib Require Import ZArith List String Ascii Bool Lia.
Import ListNotations.
Local Open Scope string_scope.
Local Open Scope Z_scope.
Local Open Scope list_scope.

(** ** Byte-level helpers for Go strings *)

Module GoString.

Definition byte_of (c : ascii) : Z := Z.of_N (N_of_ascii c).

Definition byte_to (z : Z) : ascii := ascii_of_N (Z.to_N z).

(** [utf8.RuneSelf]: bytes below it are single-byte runes. *)
Definition RuneSelf : Z := 128.

Definition is_upper (c : ascii) : bool :=
  (byte_of "A" <=? byte_of c) && (byte_of c <=? byte_of "Z").

Definition lower_byte (c : ascii) : ascii :=
  if is_upper c then byte_to (byte_of c + (byte_of "a" - byte_of "A")) else c.

Fixpoint isASCII (s : string) : bool :=
  match s with
  | EmptyString => true
  | String c r => (byte_of c <? RuneSelf) && isASCII r
  end.

Fixpoint map_bytes (f : ascii -> ascii) (s : string) : string :=
  match s with
  | EmptyString => EmptyString
  | String c r => String (f c) (map_bytes f r)
  end.

(** [strings.HasPrefix]. *)
Fixpoint HasPrefix (s p : string) : bool :=
  match p, s with
  | EmptyString, _ => true
  | String a p', String b s' => Ascii.eqb a b && HasPrefix s' p'
  | String _ _, EmptyString => false
  end.

(** [strings.ReplaceAll s " " ""]: every space byte is dropped. *)
Fixpoint remove_spaces (s : string) : string :=
  match s with
  | EmptyString => EmptyString
  | String c r => if Ascii.eqb c " " then remove_spaces r else String c (remove_spaces r)
  end.

Section Unicode.

(** The two places where the Go library consults its Unicode tables:
    [strings.Map unicode.ToLower] on a string holding a byte >= RuneSelf,
    and the rune loop of [strings.EqualFold] on the two remainders. *)
Variable MapUnicodeToLower : string -> string.
Variable EqualFoldUnicode : string -> string -> bool.

(** [strings.ToLower]: the ASCII-only path is byte-wise. *)
Definition ToLower (s : string) : string :=
  if isASCII s then map_bytes lower_byte s else MapUnicodeToLower s.

(** [strings.EqualFold]: the byte loop runs while both strings have bytes;
    on the first byte pair with the high bit set the rune loop takes over. *)
Fixpoint EqualFold (s t : string) : bool :=
  match s, t with
  | String sr s', String tr t' =>
      if RuneSelf <=? Z.lor (byte_of sr) (byte_of tr) then EqualFoldUnicode s t
      else if Ascii.eqb tr sr then EqualFold s' t'
      else
        let lo := if byte_of tr <? byte_of sr then tr else sr in
        let hi := if byte_of tr <? byte_of sr then sr else tr in
        if is_upper lo && (byte_of hi =? byte_of lo + (byte_of "a" - byte_of "A"))
        then EqualFold s' t'
        else false
  | EmptyString, EmptyString => true
  | _, _ => false
  end.

End Unicode.

End GoString.

(** ** [strconv]: decimal conversion on the 64-bit [int] *)

Module Strconv.

Import GoString.

Definition minInt : Z := - 2 ^ 63.
Definition maxInt : Z := 2 ^ 63 - 1.

Definition digit_val (c : ascii) : option Z :=
  let d := byte_of c - byte_of "0" in
  if (0 <=? d) && (d <=? 9) then Some d else None.

(** The digit loop: [n = n*10 + int(ch)], a non-digit is a syntax error. *)
Fixpoint digits_from (s : string) (n : Z) : option Z :=
  match s with
  | EmptyString => Some n
  | String c r =>
      match digit_val c with
      | Some d => digits_from r (n * 10 + d)
      | None => None
      end
  end.

(** [strconv.Atoi]: an optional sign, at least one digit, digits only, and a
    value that fits [int]; [None] stands for the [NumError] results (syntax
    and range). *)
Definition Atoi (s : string) : option Z :=
  match s with
  | EmptyString => None
  | String c r =>
      let neg := Ascii.eqb c "-" in
      let body := if neg || Ascii.eqb c "+" then r else s in
      match body with
      | EmptyString => None
      | _ =>
          match digits_from body 0 with
          | Some n =>
              let v := if neg then - n else n in
              if (minInt <=? v) && (v <=? maxInt) then Some v else None
          | None => None
          end
      end
  end.

Definition digit_char (d : Z) : ascii := byte_to (byte_of "0" + d).

(** The formatting loop of [strconv.Itoa]: least significant digit first,
    written in front of what is already there. *)
Fixpoint utoa_loop (fuel : nat) (u : Z) (acc : string) : string :=
  let acc' := String (digit_char (u mod 10)) acc in
  match fuel with
  | O => acc'
  | S f => if u <? 10 then acc' else utoa_loop f (u / 10) acc'
  end.

Definition utoa (u : Z) : string := utoa_loop (Z.to_nat (Z.log2 u)) u "".

(** [strconv.Itoa] and the [String] method of [big.Int]: decimal, a leading [-] when
    negative. *)
Definition Itoa (n : Z) : string :=
  if n <? 0 then String "-" (utoa (- n)) else utoa n.

(** The bytes [Itoa] writes: a minus sign or a digit. *)
Definition is_decimal_byte (c : ascii) : bool :=
  Ascii.eqb c "-" || match digit_val c with Some _ => true | None => false end.

Fixpoint all_decimal (s : string) : bool :=
  match s with
  | EmptyString => true
  | String c r => is_decimal_byte c && all_decimal r
  end.

End Strconv.

(** ** Reason codes *)

Module ocsp.
Definition Unspecified : Z := 0.
Definition KeyCompromise : Z := 1.
Definition CACompromise : Z := 2.
Definition AffiliationChanged : Z := 3.
Definition Superseded : Z := 4.
Definition CessationOfOperation : Z := 5.
Definition CertificateHold : Z := 6.
Definition RemoveFromCRL : Z := 8.
Definition PrivilegeWithdrawn : Z := 9.
Definition AACompromise : Z := 10.
End ocsp.

(** Errors the command builds itself, by the function that builds them, and
    errors handed back by a collaborator. *)
Inductive error : Type :=
| ReasonCodeOutOfBounds (got lo hi : Z)
| UnrecognizedReasonCode (rc : string)
| IncompatibleFlagWithFlag (flag withFlag : string)
| RequiredWithFlag (flag required : string)
| RequiredFlag (flag : string)
| RequiredUnlessFlag (flag unlessFlag : string)
| InvalidFlagValue (flag value options : string)
| NoPositionalArguments (app cmd : string)
| TooFewArguments
| TooManyArguments
| TokenSubjectMismatch (subject serial : string)
| Wrap (cause : string) (msg : string)
| EmptyCertificateChain
| External (msg : string).

(** [RevocationReasonCodes]: the map literal, keys distinct. *)
Definition RevocationReasonCodes : list (string * Z) :=
  [ ("unspecified", ocsp.Unspecified);
    ("keycompromise", ocsp.KeyCompromise);
    ("cacompromise", ocsp.CACompromise);
    ("affiliationchanged", ocsp.AffiliationChanged);
    ("superseded", ocsp.Superseded);
    ("cessationofoperation", ocsp.CessationOfOperation);
    ("certificatehold", ocsp.CertificateHold);
    ("removefromcrl", ocsp.RemoveFromCRL);
    ("privilegewithdrawn", ocsp.PrivilegeWithdrawn);
    ("aacompromise", ocsp.AACompromise) ].

Fixpoint map_lookup (m : list (string * Z)) (k : string) : option Z :=
  match m with
  | [] => None
  | (k', v) :: r => if String.eqb k' k then Some v else map_lookup r k
  end.

Section ReasonCode.

Variable MapUnicodeToLower : string -> string.

(** The lookup key: [strings.ToLower(strings.ReplaceAll(rc, " ", ""))]. *)
Definition normalize (rc : string) : string :=
  GoString.ToLower MapUnicodeToLower (GoString.remove_spaces rc).

(** [ReasonCodeToNum]: the pair [(int, error)] as Go returns it. *)
Definition ReasonCodeToNum (rc : string) : Z * option error :=
  if String.eqb rc "" then (0, None)
  else
    match Strconv.Atoi rc with
    | Some code =>
        if (code <? ocsp.Unspecified) || (code >? ocsp.AACompromise)
        then (-1, Some (ReasonCodeOutOfBounds code ocsp.Unspecified ocsp.AACompromise))
        else (code, None)
    | None =>
        match map_lookup RevocationReasonCodes (normalize rc) with
        | None => (0, Some (UnrecognizedReasonCode rc))
        | Some code => (code, None)
        end
    end.

End ReasonCode.

(** ** Data of the command *)

(** What the command reads from [*cli.Context]. *)
Record CliContext : Type := mkContext {
  Args : list string;
  cert_flag : string;
  key_flag : string;
  token_flag : string;
  reason_flag : string;
  reasonCode_flag : string;
  offline_flag : bool;
  ca_config_flag : string;
  ca_url_flag : string;
  root_flag : string;
  AppName : string;
  CommandName : string
}.

(** [ctx.Args().Get(0)]: the empty string when there is no argument. *)
Definition Args_Get0 (ctx : CliContext) : string := hd "" (Args ctx).

(** [ctx.NArg()]. *)
Definition NArg (ctx : CliContext) : Z := Z.of_nat (List.length (Args ctx)).

Definition newline : string := String (ascii_of_nat 10) EmptyString.

(** [len(s) > 0] on a string. *)
Definition nonempty (s : string) : bool := negb (String.eqb s "").

(** [errs.NumberOfArguments(ctx, required)]. *)
Definition NumberOfArguments (ctx : CliContext) (required : Z) : option error :=
  if NArg ctx <? required then Some TooFewArguments
  else if NArg ctx >? required then Some TooManyArguments
  else None.

(** [revokeTokenClaims]: the [sha] claim and the fields of [jose.Claims]
    that the command reads. *)
Record revokeTokenClaims : Type := mkClaims {
  SHA : string;
  Subject : string;
  Audience : list string
}.

Record Certificate : Type := mkCertificate { SerialNumber : Z }.

Inductive JSONWebToken : Type := mkJWT (id : nat).
Inductive OfflineCA : Type := mkOfflineCA (id : nat).
Inductive Client : Type := mkClient (id : nat).
Inductive PrivateKey : Type := mkKey (id : nat).
Inductive PemBlock : Type := mkBlock (id : nat).
Inductive CertPool : Type := mkPool (id : nat).

(** [tls.Certificate]: the chain is what the command looks at. *)
Record TLSCertificate : Type := mkTLSCertificate { Chain : list string }.

Inductive ClientOption : Type :=
| WithRootSHA256 (sha : string)
| WithRootFile (path : string).

(** [cautils.CaClient]: the offline CA of the flow (a pointer, possibly nil)
    or a client built by [ca.NewClient]. *)
Inductive CaClient : Type :=
| OfflineClient (o : option OfflineCA)
| OnlineClient (c : Client).

Inductive ProxyFunc : Type := ProxyFromEnvironment.

(** [http.Transport] with its [tls.Config], the fields the command sets. *)
Record Transport : Type := mkTransport {
  Proxy : ProxyFunc;
  RootCAs : CertPool;
  PreferServerCipherSuites : bool;
  Certificates : list TLSCertificate
}.

(** [api.RevokeRequest]. *)
Record RevokeRequest : Type := mkRevokeRequest {
  Serial : string;
  Reason : string;
  ReasonCode : Z;
  OTT : string;
  Passive : bool
}.

Record revokeFlow : Type := mkFlow {
  offlineCA : option OfflineCA;
  offline : bool
}.

(** ** Collaborators *)

(** A collaborator returns its value or its own error, kept as a message. *)
Definition reply (A : Type) : Type := (A + string)%type.

Record World : Type := mkWorld {
  MapUnicodeToLower : string -> string;
  EqualFoldUnicode : string -> string -> bool;
  (* flags.ParseCaURLIfExists *)
  ParseCaURLIfExists : CliContext -> reply string;
  (* pki.GetRootCAPath, os.Stat (true: no error) *)
  GetRootCAPath : string;
  Stat : string -> bool;
  (* jose.ParseSigned and the token's UnsafeClaimsWithoutVerification *)
  ParseSigned : string -> reply JSONWebToken;
  UnsafeClaimsWithoutVerification : JSONWebToken -> reply revokeTokenClaims;
  (* ca.NewClient *)
  NewClient : string -> list ClientOption -> reply Client;
  (* cautils.NewOfflineCA and the methods of the offline CA *)
  NewOfflineCA : CliContext -> string -> reply OfflineCA;
  VerifyClientCert : OfflineCA -> string -> string -> option string;
  OfflineGenerateToken : option OfflineCA -> CliContext -> string -> reply string;
  (* cautils.NewTokenFlow: subject, caURL, root *)
  NewTokenFlow : CliContext -> string -> string -> string -> reply string;
  (* ui.Prompt *)
  Prompt : string -> reply string;
  (* pemutil, os, tls, x509util *)
  ReadCertificateBundle : string -> reply (list Certificate);
  ReadFile : string -> reply string;
  pemutil_Read : string -> reply PrivateKey;
  pemutil_Serialize : PrivateKey -> reply PemBlock;
  EncodeToMemory : PemBlock -> string;
  X509KeyPair : string -> string -> reply TLSCertificate;
  ReadCertPool : string -> reply CertPool;
  (* the Revoke method of the client *)
  ClientRevoke : CaClient -> RevokeRequest -> option Transport -> option string
}.

(** ** Effects: what a run does, in order *)

(** An event is a call the command makes.  [EvPrintSelected] and [EvPrintf]
    record the calls of [ui.PrintSelected] and [ui.Printf] with the text
    handed to them, for [EvPrintf] the format filled with its arguments.
    What the [ui] package writes from that text is its own affair (it renders
    the text as a template), and the command drops the error it returns. *)
Inductive event : Type :=
| EvNewOfflineCA (caConfig : string)
| EvVerifyClientCert (certFile keyFile : string)
| EvReadCertificateBundle (path : string)
| EvStat (path : string)
| EvReadFile (path : string)
| EvReadKey (path : string)
| EvReadCertPool (path : string)
| EvPrompt (msg : string)
| EvOfflineGenerateToken (subject : string)
| EvNewTokenFlow (subject caURL root : string)
| EvPrintSelected (label value : string)
| EvNewClient (caURL : string) (options : list ClientOption)
| EvRevoke (client : CaClient) (req : RevokeRequest) (tr : option Transport)
| EvPrintf (msg : string).

Definition is_root_file_option (o : ClientOption) : bool :=
  match o with WithRootFile _ => true | WithRootSHA256 _ => false end.

(** Events that touch the file system. *)
Definition is_file_access (e : event) : bool :=
  match e with
  | EvNewOfflineCA _ | EvVerifyClientCert _ _ | EvReadCertificateBundle _
  | EvStat _ | EvReadFile _ | EvReadKey _ | EvReadCertPool _ => true
  | EvNewClient _ options => existsb is_root_file_option options
  | _ => false
  end.

Inductive outcome (A : Type) : Type :=
| Ok (a : A)
| Err (e : error)
| Panic (msg : string).

Arguments Ok {A} a.
Arguments Err {A} e.
Arguments Panic {A} msg.

(** A computation: how it ends and the events it emitted on the way. *)
Definition M (A : Type) : Type := (outcome A * list event)%type.

Definition ret {A : Type} (a : A) : M A := (Ok a, []).

Definition fail {A : Type} (e : error) : M A := (Err e, []).

Definition panic {A : Type} (msg : string) : M A := (Panic msg, []).

Definition emit (e : event) : M unit := (Ok tt, [e]).

Definition bind {A B : Type} (m : M A) (k : A -> M B) : M B :=
  match m with
  | (Ok a, t) => let (r, t') := k a in (r, t ++ t')
  | (Err e, t) => (Err e, t)
  | (Panic msg, t) => (Panic msg, t)
  end.

Declare Scope flow_scope.
Delimit Scope flow_scope with flow.
Notation "x <- m ;; k" := (bind m (fun x => k))
  (at level 61, m at next level, right associativity) : flow_scope.
Notation "m ;;; k" := (bind m (fun _ => k))
  (at level 61, right associativity) : flow_scope.
Local Open Scope flow_scope.

(** A collaborator call whose error is returned as it is. *)
Definition call {A : Type} (e : event) (r : reply A) : M A :=
  match r with
  | inl a => (Ok a, [e])
  | inr msg => (Err (External msg), [e])
  end.

(** A collaborator call whose error is wrapped: [errors.Wrap(err, msg)]. *)
Definition callWrap {A : Type} (e : list event) (r : reply A) (ctxMsg : string) : M A :=
  match r with
  | inl a => (Ok a, e)
  | inr msg => (Err (Wrap msg ctxMsg), e)
  end.

(** A pure collaborator (no event), error returned as it is. *)
Definition pureCall {A : Type} (r : reply A) : M A :=
  match r with
  | inl a => (Ok a, [])
  | inr msg => (Err (External msg), [])
  end.

Definition outcome_of {A : Type} (m : M A) : outcome A := fst m.
Definition trace_of {A : Type} (m : M A) : list event := snd m.

(** ** The flow *)

Section Flow.

Variable w : World.

Definition reasonCodeToNum (rc : string) : Z * option error :=
  ReasonCodeToNum (MapUnicodeToLower w) rc.

Definition equalFold (s t : string) : bool :=
  GoString.EqualFold (EqualFoldUnicode w) s t.

Definition toLower (s : string) : string :=
  GoString.ToLower (MapUnicodeToLower w) s.

(** [newRevokeFlow]. *)
Definition newRevokeFlow (ctx : CliContext) (certFile keyFile : string) : M revokeFlow :=
  let offline := offline_flag ctx in
  if offline then
    let caConfig := ca_config_flag ctx in
    if String.eqb caConfig "" then fail (InvalidFlagValue "ca-config" "" "")
    else
      offlineClient <- call (EvNewOfflineCA caConfig) (NewOfflineCA w ctx caConfig) ;;
      (if nonempty certFile || nonempty keyFile
       then match VerifyClientCert w offlineClient certFile keyFile with
            | Some msg => (Err (External msg), [EvVerifyClientCert certFile keyFile])
            | None => emit (EvVerifyClientCert certFile keyFile)
            end
       else ret tt) ;;;
      ret {| offlineCA := Some offlineClient; offline := offline |}
  else ret {| offlineCA := None; offline := offline |}.

(** The condition of line 344: a fingerprint, an audience, and a first
    audience entry that starts with [http] once lowered. *)
Definition usable_hint (claims : revokeTokenClaims) : bool :=
  nonempty (SHA claims)
  && (0 <? Z.of_nat (List.length (Audience claims)))
  && GoString.HasPrefix (toLower (hd "" (Audience claims))) "http".

(** The end of [getClient], lines 357-366: the root file, then the client. *)
Definition getClient_rootFile (ctx : CliContext) (caURL rootFile : string)
    (options : list ClientOption) : M CaClient :=
  rootFile <- (if String.eqb rootFile ""
               then
                 let rootFile := GetRootCAPath w in
                 if Stat w rootFile then (Ok rootFile, [EvStat rootFile])
                 else (Err (RequiredFlag "root"), [EvStat rootFile])
               else ret rootFile) ;;
  let options := options ++ [WithRootFile rootFile] in
  emit (EvPrintSelected "CA" caURL) ;;;
  c <- call (EvNewClient caURL options) (NewClient w caURL options) ;;
  ret (OnlineClient c).

(** [(f *revokeFlow) getClient]. *)
Definition getClient (f : revokeFlow) (ctx : CliContext) (serial token : string) : M CaClient :=
  if offline f then ret (OfflineClient (offlineCA f))
  else
    caURL <- pureCall (ParseCaURLIfExists w ctx) ;;
    let rootFile := root_flag ctx in
    let options : list ClientOption := [] in
    if nonempty token then
      tok <- callWrap [] (ParseSigned w token) "error parsing flag '--token'" ;;
      claims <- callWrap [] (UnsafeClaimsWithoutVerification w tok) "error parsing flag '--token'" ;;
      if negb (equalFold (Subject claims) serial)
      then fail (TokenSubjectMismatch (Subject claims) serial)
      else if usable_hint claims then
        let caURL := if String.eqb caURL "" then hd "" (Audience claims) else caURL in
        let options := options ++ [WithRootSHA256 (SHA claims)] in
        emit (EvPrintSelected "CA" caURL) ;;;
        c <- call (EvNewClient caURL options) (NewClient w caURL options) ;;
        ret (OnlineClient c)
      else getClient_rootFile ctx caURL rootFile options
    else if String.eqb caURL "" then fail (RequiredFlag "ca-url")
    else getClient_rootFile ctx caURL rootFile options.

(** [(f *revokeFlow) GenerateToken]: the token, and the subject as the
    pointer argument holds it afterwards. *)
Definition GenerateToken (f : revokeFlow) (ctx : CliContext) (subject : string)
    : M (string * string) :=
  if offline f then
    tok <- call (EvOfflineGenerateToken subject)
                (OfflineGenerateToken w (offlineCA f) ctx subject) ;;
    ret (tok, subject)
  else
    caURL <- pureCall (ParseCaURLIfExists w ctx) ;;
    if String.eqb caURL "" then fail (RequiredUnlessFlag "ca-url" "token")
    else
      root <- (if String.eqb (root_flag ctx) ""
               then
                 let root := GetRootCAPath w in
                 if Stat w root then (Ok root, [EvStat root])
                 else (Err (RequiredUnlessFlag "root" "token"), [EvStat root])
               else ret (root_flag ctx)) ;;
      subject <- (if String.eqb subject ""
                  then call (EvPrompt "What is the Serial Number of the certificate you would like to revoke? (`step certificate inspect foo.cert`)")
                            (Prompt w "What is the Serial Number of the certificate you would like to revoke? (`step certificate inspect foo.cert`)")
                  else ret subject) ;;
      tok <- call (EvNewTokenFlow subject caURL root) (NewTokenFlow w ctx subject caURL root) ;;
      ret (tok, subject).

(** Lines 417-460 of [Revoke]: the mTLS transport from [--cert] and [--key]. *)
Definition mTLSTransport (ctx : CliContext) : M Transport :=
  let certFile := cert_flag ctx in
  let keyFile := key_flag ctx in
  certPEMBytes <- callWrap [EvReadFile certFile] (ReadFile w certFile) "error reading certificate" ;;
  key <- callWrap [EvReadKey keyFile] (pemutil_Read w keyFile) "error parsing key" ;;
  keyBlock <- callWrap [] (pemutil_Serialize w key) "error serializing key" ;;
  cert <- callWrap [] (X509KeyPair w certPEMBytes (EncodeToMemory w keyBlock))
                   "error loading certificate key pair" ;;
  if Z.of_nat (List.length (Chain cert)) =? 0 then fail EmptyCertificateChain
  else
    root <- (if String.eqb (root_flag ctx) ""
             then
               let root := GetRootCAPath w in
               if Stat w root then (Ok root, [EvStat root])
               else (Err (RequiredUnlessFlag "root" "token"), [EvStat root])
             else ret (root_flag ctx)) ;;
    rootCAs <- call (EvReadCertPool root) (ReadCertPool w root) ;;
    ret {| Proxy := ProxyFromEnvironment;
           RootCAs := rootCAs;
           PreferServerCipherSuites := true;
           Certificates := [cert] |}.

(** [(f *revokeFlow) Revoke]. *)
Definition Revoke (f : revokeFlow) (ctx : CliContext) (serial token : string) : M unit :=
  client <- getClient f ctx serial token ;;
  let reason := reason_flag ctx in
  match reasonCodeToNum (reasonCode_flag ctx) with
  | (_, Some err) => fail err
  | (reasonCode, None) =>
      tr <- (if String.eqb token ""
             then t <- mTLSTransport ctx ;; ret (Some t)
             else ret None) ;;
      let req := {| Serial := serial;
                    Reason := reason;
                    ReasonCode := reasonCode;
                    OTT := token;
                    Passive := true |} in
      match ClientRevoke w client req tr with
      | Some msg => (Err (External msg), [EvRevoke client req tr])
      | None => emit (EvRevoke client req tr)
      end
  end.

(** The last lines of [revokeCertificateAction]: dispatch, then the call of
    [ui.Printf] with the report line; the error of that call is dropped and
    the action returns nil. *)
Definition revokeAndReport (flow : revokeFlow) (ctx : CliContext) (serial token : string) : M unit :=
  Revoke flow ctx serial token ;;;
  emit (EvPrintf ("Certificate with Serial Number " ++ serial ++ " has been revoked." ++ newline)%string).

(** [revokeCertificateAction]. The two [errs.IncompatibleFlagWithFlag] calls
    of lines 246-251 build an error value that is dropped. *)
Definition revokeCertificateAction (ctx : CliContext) : M unit :=
  let serial := Args_Get0 ctx in
  let certFile := cert_flag ctx in
  let keyFile := key_flag ctx in
  let token := token_flag ctx in
  let offline := offline_flag ctx in
  match reasonCodeToNum (reasonCode_flag ctx) with
  | (_, Some err) => fail err
  | (_, None) =>
      if offline && negb (String.eqb token "")
      then fail (IncompatibleFlagWithFlag "offline" "token")
      else
        flow <- newRevokeFlow ctx certFile keyFile ;;
        if nonempty certFile || nonempty keyFile then
          if NArg ctx >? 0 then fail (NoPositionalArguments (AppName ctx) (CommandName ctx))
          else if String.eqb certFile "" then fail (RequiredWithFlag "key" "cert")
          else if String.eqb keyFile "" then fail (RequiredWithFlag "cert" "key")
          else
            let _ := if nonempty token
                     then Some (IncompatibleFlagWithFlag "cert" "token") else None in
            let _ := if nonempty serial
                     then Some (IncompatibleFlagWithFlag "cert" "serial") else None in
            cert <- call (EvReadCertificateBundle certFile) (ReadCertificateBundle w certFile) ;;
            match cert with
            | [] => panic "index out of range [0] with length 0"
            | c0 :: _ =>
                let serial := Strconv.Itoa (SerialNumber c0) in
                revokeAndReport flow ctx serial token
            end
        else
          match NumberOfArguments ctx 1 with
          | Some err => fail err
          | None =>
              if String.eqb token "" then
                ts <- GenerateToken flow ctx serial ;;
                revokeAndReport flow ctx (snd ts) (fst ts)
              else revokeAndReport flow ctx serial token
          end
  end.

(** The gates that come before the cert/key branch. *)
Definition gates_passed (ctx : CliContext) (flow : revokeFlow) : Prop :=
  snd (reasonCodeToNum (reasonCode_flag ctx)) = None
  /\ (offline_flag ctx = false \/ token_flag ctx = "")
  /\ outcome_of (newRevokeFlow ctx (cert_flag ctx) (key_flag ctx)) = Ok flow.

(** The errors of the reason-code check. *)
Definition is_reason_code_error (e : error) : bool :=
  match e with
  | ReasonCodeOutOfBounds _ _ _ | UnrecognizedReasonCode _ => true
  | _ => false
  end.

(** The errors about the positional arguments and the cert/key pair. *)
Definition is_argument_error (e : error) : bool :=
  match e with
  | NoPositionalArguments _ _ | RequiredWithFlag _ _
  | TooFewArguments | TooManyArguments => true
  | _ => false
  end.

(** The three ways [revokeCertificateAction] reaches its call of [Revoke],
    with the serial number and the token it passes: from the bundle of
    [--cert], from the positional argument with [--token], or from the
    positional argument with a generated token. *)
Definition dispatch_inputs (ctx : CliContext) (flow : revokeFlow)
    (serial token : string) : Prop :=
  gates_passed ctx flow
  /\ ((cert_flag ctx <> "" /\ key_flag ctx <> "" /\ NArg ctx = 0
       /\ token = token_flag ctx
       /\ exists c0 rest,
            ReadCertificateBundle w (cert_flag ctx) = inl (c0 :: rest)
            /\ serial = Strconv.Itoa (SerialNumber c0))
      \/ (cert_flag ctx = "" /\ key_flag ctx = "" /\ NArg ctx = 1
          /\ token_flag ctx <> "" /\ token = token_flag ctx
          /\ serial = Args_Get0 ctx)
      \/ (cert_flag ctx = "" /\ key_flag ctx = "" /\ NArg ctx = 1
          /\ token_flag ctx = ""
          /\ outcome_of (GenerateToken flow ctx (Args_Get0 ctx)) = Ok (token, serial))).

(** The events [revokeCertificateAction] can emit before it calls [Revoke]. *)
Definition early_event (ctx : CliContext) (ev : event) : Prop :=
  In ev (trace_of (newRevokeFlow ctx (cert_flag ctx) (key_flag ctx)))
  \/ (ev = EvReadCertificateBundle (cert_flag ctx)
      /\ cert_flag ctx <> "" /\ key_flag ctx <> "" /\ NArg ctx = 0)
  \/ (cert_flag ctx = "" /\ key_flag ctx = "" /\ token_flag ctx = "" /\ NArg ctx = 1
      /\ exists flow,
           outcome_of (newRevokeFlow ctx (cert_flag ctx) (key_flag ctx)) = Ok flow
           /\ In ev (trace_of (GenerateToken flow ctx (Args_Get0 ctx)))).

(** The events [revokeCertificateAction] can emit before the client is
    called: the early ones, and those of [getClient] and of the mTLS block
    inside [Revoke]. *)
Definition prior_event (ctx : CliContext) (ev : event) : Prop :=
  early_event ctx ev
  \/ exists flow serial token,
       dispatch_inputs ctx flow serial token
       /\ (In ev (trace_of (getClient flow ctx serial token))
           \/ (token = "" /\ In ev (trace_of (mTLSTransport ctx)))).

(** The text of the final [ui.Printf] call: the format of line 276 filled
    with the serial number. *)
Definition report (serial : string) : string :=
  ("Certificate with Serial Number " ++ serial ++ " has been revoked." ++ newline)%string.

End Flow.

(** ** A small concrete world, to run the flow on *)

Module Demo.

Definition defaultRoot : string := "/home/step/.step/certs/root_ca.crt".

(** Two tokens parse: ["tok-plain"] carries only the subject ["123"],
    ["tok-boot"] also a fingerprint and an audience. *)
Definition parseSigned (token : string) : reply JSONWebToken :=
  if String.eqb token "tok-plain" then inl (mkJWT 1)
  else if String.eqb token "tok-boot" then inl (mkJWT 2)
  else inr "compact JWS format must have three parts".

Definition claimsOf (t : JSONWebToken) : reply revokeTokenClaims :=
  match t with
  | mkJWT 1 => inl {| SHA := ""; Subject := "123"; Audience := [] |}
  | mkJWT 2 => inl {| SHA := "4fe5f9f2"; Subject := "123";
                      Audience := ["HTTPS://ca.example.com/1.0/revoke"] |}
  | mkJWT _ => inr "invalid payload"
  end.

Definition readBundle (path : string) : reply (list Certificate) :=
  if String.eqb path "leaf.crt" then inl [ {| SerialNumber := 123 |}; {| SerialNumber := 7 |} ]
  else inr "no such file".

Definition world : World := {|
  MapUnicodeToLower := fun s => s;
  EqualFoldUnicode := fun _ _ => false;
  ParseCaURLIfExists := fun ctx => inl (ca_url_flag ctx);
  GetRootCAPath := defaultRoot;
  Stat := fun path => String.eqb path defaultRoot || String.eqb path "root.crt";
  ParseSigned := parseSigned;
  UnsafeClaimsWithoutVerification := claimsOf;
  NewClient := fun _ _ => inl (mkClient 0);
  NewOfflineCA := fun _ _ => inl (mkOfflineCA 0);
  VerifyClientCert := fun _ _ _ => None;
  OfflineGenerateToken := fun _ _ _ => inl "tok-plain";
  NewTokenFlow := fun _ _ _ _ => inl "tok-plain";
  Prompt := fun _ => inl "123";
  ReadCertificateBundle := readBundle;
  ReadFile := fun path => if String.eqb path "leaf.crt" then inl "PEM" else inr "no such file";
  pemutil_Read := fun path => if String.eqb path "leaf.key" then inl (mkKey 0) else inr "no such file";
  pemutil_Serialize := fun _ => inl (mkBlock 0);
  EncodeToMemory := fun _ => "KEY";
  X509KeyPair := fun _ _ => inl {| Chain := ["DER"] |};
  ReadCertPool := fun _ => inl (mkPool 0);
  ClientRevoke := fun _ _ _ => None
|}.

(** [step ca revoke] with nothing set. *)
Definition bare : CliContext := {|
  Args := []; cert_flag := ""; key_flag := ""; token_flag := "";
  reason_flag := ""; reasonCode_flag := ""; offline_flag := false;
  ca_config_flag := ""; ca_url_flag := ""; root_flag := "";
  AppName := "step"; CommandName := "revoke"
|}.

Definition with_args (a : list string) (c : CliContext) : CliContext :=
  mkContext a (cert_flag c) (key_flag c) (token_flag c) (reason_flag c)
    (reasonCode_flag c) (offline_flag c) (ca_config_flag c) (ca_url_flag c)
    (root_flag c) (AppName c) (CommandName c).

Definition with_cert_key (crt k : string) (c : CliContext) : CliContext :=
  mkContext (Args c) crt k (token_flag c) (reason_flag c)
    (reasonCode_flag c) (offline_flag c) (ca_config_flag c) (ca_url_flag c)
    (root_flag c) (AppName c) (CommandName c).

Definition with_token (t : string) (c : CliContext) : CliContext :=
  mkContext (Args c) (cert_flag c) (key_flag c) t (reason_flag c)
    (reasonCode_flag c) (offline_flag c) (ca_config_flag c) (ca_url_flag c)
    (root_flag c) (AppName c) (CommandName c).

Definition with_offline (cfg : string) (c : CliContext) : CliContext :=
  mkContext (Args c) (cert_flag c) (key_flag c) (token_flag c) (reason_flag c)
    (reasonCode_flag c) true cfg (ca_url_flag c)
    (root_flag c) (AppName c) (CommandName c).

Definition with_ca_url (u : string) (c : CliContext) : CliContext :=
  mkContext (Args c) (cert_flag c) (key_flag c) (token_flag c) (reason_flag c)
    (reasonCode_flag c) (offline_flag c) (ca_config_flag c) u
    (root_flag c) (AppName c) (CommandName c).

Definition with_root (r : string) (c : CliContext) : CliContext :=
  mkContext (Args c) (cert_flag c) (key_flag c) (token_flag c) (reason_flag c)
    (reasonCode_flag c) (offline_flag c) (ca_config_flag c) (ca_url_flag c)
    r (AppName c) (CommandName c).

Definition with_reasonCode (rc : string) (c : CliContext) : CliContext :=
  mkContext (Args c) (cert_flag c) (key_flag c) (token_flag c) (reason_flag c)
    rc (offline_flag c) (ca_config_flag c) (ca_url_flag c)
    (root_flag c) (AppName c) (CommandName c).

Definition online : revokeFlow := {| offlineCA := None; offline := false |}.

(** [step ca revoke --cert leaf.crt --key leaf.key --ca-url https://ca.internal]. *)
Definition mtls : CliContext :=
  with_ca_url "https://ca.internal" (with_cert_key "leaf.crt" "leaf.key" bare).

(** [step ca revoke --cert leaf.crt --key leaf.key --token tok-plain]. *)
Definition cert_and_token : CliContext :=
  with_token "tok-plain" (with_cert_key "leaf.crt" "leaf.key" bare).

Definition request_with_token : RevokeRequest :=
  {| Serial := "123"; Reason := ""; ReasonCode := 0; OTT := "tok-plain"; Passive := true |}.

Definition request_mtls : RevokeRequest :=
  {| Serial := "123"; Reason := ""; ReasonCode := 0; OTT := ""; Passive := true |}.

Definition transport : Transport :=
  {| Proxy := ProxyFromEnvironment; RootCAs := mkPool 0;
     PreferServerCipherSuites := true; Certificates := [ {| Chain := ["DER"] |} ] |}.

(** [step ca revoke --offline --ca-config ca.json --token tok-plain 123]. *)
Definition offline_with_token : CliContext :=
  with_args ["123"] (with_token "tok-plain" (with_offline "ca.json" bare)).

(** [step ca revoke --cert leaf.crt]. *)
Definition cert_only : CliContext := with_cert_key "leaf.crt" "" bare.

(** [step ca revoke --cert leaf.crt 123]. *)
Definition cert_only_with_serial : CliContext := with_args ["123"] cert_only.

(** [step ca revoke --ca-url https://ca.internal]. *)
Definition explicit_url : CliContext := with_ca_url "https://ca.internal" bare.

(** [step ca revoke --ca-url https://ca.internal --root root.crt 123]. *)
Definition serial_only : CliContext :=
  with_args ["123"] (with_root "root.crt" explicit_url).

(** [step ca revoke --ca-url https://ca.internal ""]: an empty serial number. *)
Definition empty_serial : CliContext := with_args [""] explicit_url.

(** [step ca revoke --offline --ca-config ca.json 123]. *)
Definition offline_serial : CliContext :=
  with_args ["123"] (with_offline "ca.json" bare).

(** [step ca revoke --token tok-plain 123]. *)
Definition token_and_serial : CliContext :=
  with_args ["123"] (with_token "tok-plain" bare).

(** A world whose CA refuses the request. *)
Definition refusing : World :=
  mkWorld (MapUnicodeToLower world) (EqualFoldUnicode world) (ParseCaURLIfExists world)
    (GetRootCAPath world) (Stat world) (ParseSigned world)
    (UnsafeClaimsWithoutVerification world) (NewClient world) (NewOfflineCA world)
    (VerifyClientCert world) (OfflineGenerateToken world) (NewTokenFlow world)
    (Prompt world) (ReadCertificateBundle world) (ReadFile world) (pemutil_Read world)
    (pemutil_Serialize world) (EncodeToMemory world) (X509KeyPair world)
    (ReadCertPool world) (fun _ _ _ => Some "certificate is already revoked").

(** A world whose bundle reader returns no certificate and no error. *)
Definition empty_bundle : World :=
  mkWorld (MapUnicodeToLower world) (EqualFoldUnicode world) (ParseCaURLIfExists world)
    (GetRootCAPath world) (Stat world) (ParseSigned world)
    (UnsafeClaimsWithoutVerification world) (NewClient world) (NewOfflineCA world)
    (VerifyClientCert world) (OfflineGenerateToken world) (NewTokenFlow world)
    (Prompt world) (fun _ => inl []) (ReadFile world) (pemutil_Read world)
    (pemutil_Serialize world) (EncodeToMemory world) (X509KeyPair world)
    (ReadCertPool world) (ClientRevoke world).

End Demo.

(** * Properties *)

(** ** Decimal strings: [Atoi] after [Itoa] *)

Section DecimalRoundTrip.

Import GoString Strconv.

Lemma digit_cases (d : Z) :
  0 <= d <= 9 ->
  d = 0 \/ d = 1 \/ d = 2 \/ d = 3 \/ d = 4 \/ d = 5 \/ d = 6 \/ d = 7 \/ d = 8 \/ d = 9.
Proof. lia. Qed.

Ltac each_digit d H :=
  destruct (digit_cases d H) as [-> | [-> | [-> | [-> | [-> | [-> | [-> | [-> | [-> | ->]]]]]]]]].

Lemma digit_val_char (d : Z) : 0 <= d <= 9 -> digit_val (digit_char d) = Some d.
Proof. intros H. each_digit d H; reflexivity. Qed.

Lemma digit_char_not_sign (d : Z) :
  0 <= d <= 9 ->
  Ascii.eqb (digit_char d) "-" = false /\ Ascii.eqb (digit_char d) "+" = false.
Proof. intros H. each_digit d H; split; reflexivity. Qed.

Lemma digit_char_plain (d : Z) :
  0 <= d <= 9 ->
  (byte_of (digit_char d) <? RuneSelf) = true
  /\ lower_byte (digit_char d) = digit_char d
  /\ Ascii.eqb (digit_char d) " " = false.
Proof. intros H. each_digit d H; repeat split; reflexivity. Qed.

Lemma mod10_digit (u : Z) : 0 <= u mod 10 <= 9.
Proof. pose proof (Z.mod_pos_bound u 10). lia. Qed.

(** Reading back what the formatting loop wrote gives the number, whatever
    was in the buffer behind it. *)
Lemma digits_from_utoa_loop (fuel : nat) :
  forall u acc, 0 <= u < 2 ^ (Z.of_nat fuel + 1) ->
  digits_from (utoa_loop fuel u acc) 0 = digits_from acc u.
Proof.
  induction fuel as [| f IH]; intros u acc Hu.
  - change (2 ^ (Z.of_nat 0 + 1)) with 2 in Hu.
    cbn [utoa_loop digits_from]. rewrite digit_val_char by apply mod10_digit.
    rewrite Z.mod_small by lia. f_equal.
  - cbn [utoa_loop]. destruct (u <? 10) eqn:Hs.
    + apply Z.ltb_lt in Hs. cbn [digits_from].
      rewrite digit_val_char by apply mod10_digit.
      rewrite Z.mod_small by lia. f_equal.
    + apply Z.ltb_ge in Hs. rewrite IH.
      * cbn [digits_from]. rewrite digit_val_char by apply mod10_digit.
        f_equal. pose proof (Z.div_mod u 10). lia.
      * split; [apply Z.div_pos; lia |].
        apply Z.div_lt_upper_bound; [lia |].
        replace (Z.of_nat (S f) + 1) with (Z.succ (Z.of_nat f + 1)) in Hu by lia.
        rewrite Z.pow_succ_r in Hu by lia. lia.
Qed.

Lemma utoa_loop_head (fuel : nat) :
  forall u acc, exists d r, 0 <= d <= 9 /\ utoa_loop fuel u acc = String (digit_char d) r.
Proof.
  induction fuel as [| f IH]; intros u acc; cbn [utoa_loop].
  - exists (u mod 10), acc. split; [apply mod10_digit | reflexivity].
  - destruct (u <? 10); [| apply IH].
    exists (u mod 10), acc. split; [apply mod10_digit | reflexivity].
Qed.

Lemma digits_from_utoa (u : Z) : 0 <= u -> digits_from (utoa u) 0 = Some u.
Proof.
  intros Hu. unfold utoa. rewrite digits_from_utoa_loop; [reflexivity |].
  split; [exact Hu |].
  destruct (Z.eq_dec u 0) as [-> | Hn]; [reflexivity |].
  rewrite Z2Nat.id by apply Z.log2_nonneg.
  replace (Z.log2 u + 1) with (Z.succ (Z.log2 u)) by lia.
  apply Z.log2_spec. lia.
Qed.

(** What [Atoi] does on a decimal string: the number when it fits [int],
    a [NumError] when it does not. *)
Lemma Atoi_Itoa (n : Z) :
  Atoi (Itoa n) = if (minInt <=? n) && (n <=? maxInt) then Some n else None.
Proof.
  unfold Itoa. destruct (n <? 0) eqn:Hneg.
  - apply Z.ltb_lt in Hneg.
    destruct (utoa_loop_head (Z.to_nat (Z.log2 (- n))) (- n) "") as (d & r & Hd & Hr).
    pose proof (digits_from_utoa (- n) ltac:(lia)) as Hdig.
    unfold utoa in *. rewrite Hr in *.
    unfold Atoi. replace (Ascii.eqb "-" "-") with true by reflexivity.
    cbn [orb]. rewrite Hdig. rewrite Z.opp_involutive. reflexivity.
  - apply Z.ltb_ge in Hneg.
    destruct (utoa_loop_head (Z.to_nat (Z.log2 n)) n "") as (d & r & Hd & Hr).
    pose proof (digits_from_utoa n Hneg) as Hdig.
    unfold utoa in *. rewrite Hr in *.
    destruct (digit_char_not_sign d Hd) as [Hm Hp].
    unfold Atoi. rewrite Hm, Hp. cbn [orb]. rewrite Hdig. reflexivity.
Qed.

Lemma Itoa_nonempty (n : Z) : String.eqb (Itoa n) "" = false.
Proof.
  unfold Itoa. destruct (n <? 0); [reflexivity |].
  destruct (utoa_loop_head (Z.to_nat (Z.log2 n)) n "") as (d & r & _ & Hr).
  unfold utoa. rewrite Hr. reflexivity.
Qed.

End DecimalRoundTrip.

(** ** Reason codes: what [ReasonCodeToNum] returns *)

Section ReasonCodeFacts.

Import GoString Strconv.

Variable lowerUnicode : string -> string.

Lemma digit_char_decimal (d : Z) : 0 <= d <= 9 -> is_decimal_byte (digit_char d) = true.
Proof.
  intros H. unfold is_decimal_byte. rewrite (digit_val_char d H).
  apply orb_true_r.
Qed.

Lemma utoa_loop_decimal (fuel : nat) :
  forall u acc, all_decimal acc = true -> all_decimal (utoa_loop fuel u acc) = true.
Proof.
  induction fuel as [| f IH]; intros u acc Hacc; cbn [utoa_loop].
  - cbn [all_decimal]. rewrite digit_char_decimal by apply mod10_digit. exact Hacc.
  - destruct (u <? 10).
    + cbn [all_decimal]. rewrite digit_char_decimal by apply mod10_digit. exact Hacc.
    + apply IH. cbn [all_decimal].
      rewrite digit_char_decimal by apply mod10_digit. exact Hacc.
Qed.

Lemma Itoa_decimal (n : Z) : all_decimal (Itoa n) = true.
Proof.
  unfold Itoa, utoa. destruct (n <? 0).
  - cbn [all_decimal]. rewrite utoa_loop_decimal by reflexivity. reflexivity.
  - apply utoa_loop_decimal. reflexivity.
Qed.

Lemma decimal_byte_cases (c : ascii) :
  is_decimal_byte c = true ->
  c = "-"%char \/ exists d, 0 <= d <= 9 /\ c = digit_char d.
Proof.
  unfold is_decimal_byte. destruct (Ascii.eqb c "-") eqn:Hm.
  - left. now apply Ascii.eqb_eq.
  - cbn [orb]. unfold digit_val.
    destruct ((0 <=? byte_of c - byte_of "0") && (byte_of c - byte_of "0" <=? 9)) eqn:Hr;
      [| discriminate].
    intros _. right. exists (byte_of c - byte_of "0").
    apply andb_true_iff in Hr. destruct Hr as [H0 H9].
    apply Z.leb_le in H0, H9. split; [lia |].
    unfold digit_char, byte_to, byte_of.
    replace (Z.of_N (N_of_ascii "0") + (Z.of_N (N_of_ascii c) - Z.of_N (N_of_ascii "0")))
      with (Z.of_N (N_of_ascii c)) by lia.
    rewrite N2Z.id. symmetry. apply ascii_N_embedding.
Qed.

(** Lowering and removing spaces leaves a decimal string as it is. *)
Lemma normalize_decimal (s : string) :
  all_decimal s = true -> normalize lowerUnicode s = s.
Proof.
  intros Hs. unfold normalize, ToLower.
  assert (Hsp : remove_spaces s = s).
  { induction s as [| c r IH]; [reflexivity |].
    cbn [all_decimal] in Hs. apply andb_true_iff in Hs. destruct Hs as [Hc Hr].
    cbn [remove_spaces]. rewrite (IH Hr).
    destruct (decimal_byte_cases c Hc) as [-> | (d & Hd & ->)]; [reflexivity |].
    destruct (digit_char_plain d Hd) as (_ & _ & ->). reflexivity. }
  rewrite Hsp.
  assert (Hascii : isASCII s = true /\ map_bytes lower_byte s = s).
  { clear Hsp. induction s as [| c r IH]; [split; reflexivity |].
    cbn [all_decimal] in Hs. apply andb_true_iff in Hs. destruct Hs as [Hc Hr].
    destruct (IH Hr) as [IH1 IH2]. cbn [isASCII map_bytes]. rewrite IH1, IH2.
    destruct (decimal_byte_cases c Hc) as [-> | (d & Hd & ->)]; [split; reflexivity |].
    destruct (digit_char_plain d Hd) as (-> & -> & _). split; reflexivity. }
  destruct Hascii as [-> ->]. reflexivity.
Qed.

(** No key of the table starts with a digit or a minus sign. *)
Lemma lookup_decimal (s : string) :
  all_decimal s = true -> map_lookup RevocationReasonCodes s = None.
Proof.
  destruct s as [| c r]; [reflexivity |].
  cbn [all_decimal]. intros Hs. apply andb_true_iff in Hs. destruct Hs as [Hc _].
  destruct (decimal_byte_cases c Hc) as [-> | (d & Hd & ->)]; [reflexivity |].
  destruct (digit_cases d Hd) as [-> | [-> | [-> | [-> | [-> | [-> | [-> | [-> | [-> | ->]]]]]]]]];
    reflexivity.
Qed.

(** Code 7 is no value of the table. *)
Lemma table_has_no_7 (k : string) : map_lookup RevocationReasonCodes k <> Some 7.
Proof.
  unfold RevocationReasonCodes. cbn [map_lookup].
  repeat match goal with
         | |- context [String.eqb ?a k] => destruct (String.eqb a k)
         end; discriminate.
Qed.

Lemma ReasonCodeToNum_Itoa (n : Z) :
  ReasonCodeToNum lowerUnicode (Itoa n) =
    if (minInt <=? n) && (n <=? maxInt)
    then if (n <? 0) || (n >? 10)
         then (-1, Some (ReasonCodeOutOfBounds n 0 10))
         else (n, None)
    else (0, Some (UnrecognizedReasonCode (Itoa n))).
Proof.
  unfold ReasonCodeToNum. rewrite Itoa_nonempty, Atoi_Itoa.
  destruct ((minInt <=? n) && (n <=? maxInt)); [reflexivity |].
  rewrite normalize_decimal by apply Itoa_decimal.
  rewrite lookup_decimal by apply Itoa_decimal. reflexivity.
Qed.

End ReasonCodeFacts.

(** C4 (amended).  The empty string gives 0.  The decimal string of an
    integer in [0,10] gives that integer, 7 included although no name of
    the table maps to 7.  The decimal string of an integer outside [0,10]
    that fits the 64-bit [int] fails with the out-of-bounds error; one that
    does not fit [int] is not parsed as a number and fails as an
    unrecognized reason code.  Any other non-empty string that [Atoi]
    rejects is lowered, stripped of spaces and looked up in the table, and
    fails with the unrecognized-reason-code error naming the string when the
    table has no such key. *)
Theorem ReasonCodeToNum_spec (lowerUnicode : string -> string) (n : Z) (rc : string) :
  ReasonCodeToNum lowerUnicode "" = (0, None)
  /\ (0 <= n <= 10 -> ReasonCodeToNum lowerUnicode (Strconv.Itoa n) = (n, None))
  /\ (ReasonCodeToNum lowerUnicode "7" = (7, None)
      /\ forall k, map_lookup RevocationReasonCodes k <> Some 7)
  /\ (Strconv.minInt <= n <= Strconv.maxInt -> ~ 0 <= n <= 10 ->
      ReasonCodeToNum lowerUnicode (Strconv.Itoa n)
        = (-1, Some (ReasonCodeOutOfBounds n 0 10)))
  /\ (n < Strconv.minInt \/ Strconv.maxInt < n ->
      ReasonCodeToNum lowerUnicode (Strconv.Itoa n)
        = (0, Some (UnrecognizedReasonCode (Strconv.Itoa n))))
  /\ (rc <> "" -> Strconv.Atoi rc = None ->
      ReasonCodeToNum lowerUnicode rc =
        match map_lookup RevocationReasonCodes (normalize lowerUnicode rc) with
        | Some code => (code, None)
        | None => (0, Some (UnrecognizedReasonCode rc))
        end).
Proof.
  split; [reflexivity |].
  split.
  { intros Hn. rewrite ReasonCodeToNum_Itoa.
    replace ((Strconv.minInt <=? n) && (n <=? Strconv.maxInt)) with true
      by (symmetry; apply andb_true_iff; split; apply Z.leb_le;
          unfold Strconv.minInt, Strconv.maxInt; lia).
    replace ((n <? 0) || (n >? 10)) with false; [reflexivity |].
    symmetry. apply orb_false_iff. split; [apply Z.ltb_ge; lia |].
    rewrite Z.gtb_ltb. apply Z.ltb_ge. lia. }
  split; [split; [reflexivity | apply table_has_no_7] |].
  split.
  { intros Hn Hout. rewrite ReasonCodeToNum_Itoa.
    replace ((Strconv.minInt <=? n) && (n <=? Strconv.maxInt)) with true
      by (symmetry; apply andb_true_iff; split; apply Z.leb_le; lia).
    replace ((n <? 0) || (n >? 10)) with true; [reflexivity |].
    symmetry. apply orb_true_iff. rewrite Z.gtb_ltb.
    destruct (Z_lt_dec n 0); [left; apply Z.ltb_lt; lia | right; apply Z.ltb_lt; lia]. }
  split.
  { intros Hn. rewrite ReasonCodeToNum_Itoa.
    replace ((Strconv.minInt <=? n) && (n <=? Strconv.maxInt)) with false; [reflexivity |].
    symmetry. apply andb_false_iff.
    destruct Hn; [left; apply Z.leb_gt; lia | right; apply Z.leb_gt; lia]. }
  intros Hne Hatoi. unfold ReasonCodeToNum. rewrite Hatoi.
  destruct (String.eqb rc "") eqn:He; [apply String.eqb_eq in He; contradiction |].
  destruct (map_lookup RevocationReasonCodes (normalize lowerUnicode rc)); reflexivity.
Qed.

Lemma ReasonCodeToNum_spec_witness :
  ReasonCodeToNum (fun s => s) (Strconv.Itoa 7) = (7, None)
  /\ ReasonCodeToNum (fun s => s) (Strconv.Itoa 11)
       = (-1, Some (ReasonCodeOutOfBounds 11 0 10))
  /\ ReasonCodeToNum (fun s => s) "Key Compromise" = (1, None).
Proof.
  split; [| split].
  - apply (proj1 (proj2 (ReasonCodeToNum_spec (fun s => s) 7 "bogus"))). lia.
  - apply (proj1 (proj2 (proj2 (proj2 (ReasonCodeToNum_spec (fun s => s) 11 "bogus"))))).
    + unfold Strconv.minInt, Strconv.maxInt. lia.
    + lia.
  - rewrite (proj2 (proj2 (proj2 (proj2 (proj2
               (ReasonCodeToNum_spec (fun s => s) 0 "Key Compromise")))))).
    + reflexivity.
    + discriminate.
    + reflexivity.
Defined.

(** C4 as stated fails: 2^63 is an integer outside [0,10], and its decimal
    string is rejected as an unrecognized reason code, not as out of bounds. *)
Lemma ReasonCodeToNum_beyond_int_not_out_of_bounds :
  ~ (0 <= 2 ^ 63 <= 10)
  /\ Strconv.Itoa (2 ^ 63) = "9223372036854775808"
  /\ ReasonCodeToNum (fun s => s) "9223372036854775808"
       = (0, Some (UnrecognizedReasonCode "9223372036854775808")).
Proof.
  split; [lia |]. split; vm_compute; reflexivity.
Qed.

(** ** [strings.EqualFold] on ASCII strings *)

Section EqualFoldASCII.

Import GoString.

Variable foldUnicode : string -> string -> bool.

Lemma byte_of_range (a : ascii) : 0 <= byte_of a < 256.
Proof.
  unfold byte_of. pose proof (N_ascii_bounded a). lia.
Qed.

Lemma byte_of_to (z : Z) : 0 <= z < 256 -> byte_of (byte_to z) = z.
Proof.
  intros H. unfold byte_of, byte_to. rewrite N_ascii_embedding by lia. lia.
Qed.

Lemma ascii_eqb_byte (a b : ascii) : Ascii.eqb a b = (byte_of a =? byte_of b).
Proof.
  destruct (Ascii.eqb a b) eqn:E.
  - apply Ascii.eqb_eq in E. subst. symmetry. apply Z.eqb_refl.
  - symmetry. apply Z.eqb_neq. intros H. apply Ascii.eqb_neq in E. apply E.
    unfold byte_of in H. apply N2Z.inj in H.
    rewrite <- (ascii_N_embedding a), <- (ascii_N_embedding b). now rewrite H.
Qed.

Lemma is_upper_range (a : ascii) :
  is_upper a = (65 <=? byte_of a) && (byte_of a <=? 90).
Proof. reflexivity. Qed.

Lemma byte_of_lower (a : ascii) :
  byte_of (lower_byte a) = if is_upper a then byte_of a + 32 else byte_of a.
Proof.
  unfold lower_byte. destruct (is_upper a) eqn:E; [| reflexivity].
  change (byte_of "a" - byte_of "A") with 32.
  apply byte_of_to. pose proof (byte_of_range a).
  rewrite is_upper_range in E. apply andb_true_iff in E. destruct E as [_ E].
  apply Z.leb_le in E. lia.
Qed.

Lemma lor_below_RuneSelf (x y : Z) :
  0 <= x < RuneSelf -> 0 <= y < RuneSelf -> (RuneSelf <=? Z.lor x y) = false.
Proof.
  unfold RuneSelf. intros Hx Hy. apply Z.leb_gt.
  assert (Hnn : 0 <= Z.lor x y) by (apply Z.lor_nonneg; lia).
  destruct (Z.eq_dec (Z.lor x y) 0) as [-> | Hne]; [lia |].
  change 128 with (2 ^ 7). apply Z.log2_lt_pow2; [lia |].
  rewrite Z.log2_lor by lia.
  assert (Hl : forall v, 0 <= v < 128 -> Z.log2 v < 7).
  { intros v Hv. destruct (Z.eq_dec v 0) as [-> | Hv0]; [reflexivity |].
    apply Z.log2_lt_pow2; [lia |]. change (2 ^ 7) with 128. lia. }
  apply Z.max_lub_lt; apply Hl; lia.
Qed.

Ltac split_comparisons :=
  repeat match goal with
         | |- context [?a <=? ?b] => destruct (Z.leb_spec a b)
         | |- context [?a <? ?b] => destruct (Z.ltb_spec a b)
         | |- context [?a =? ?b] => destruct (Z.eqb_spec a b)
         end.

(** One step of the byte loop agrees with comparing the lowered bytes. *)
Lemma fold_step_lower (sr tr : ascii) :
  (if Ascii.eqb tr sr then true
   else
     let lo := if byte_of tr <? byte_of sr then tr else sr in
     let hi := if byte_of tr <? byte_of sr then sr else tr in
     is_upper lo && (byte_of hi =? byte_of lo + (byte_of "a" - byte_of "A")))
  = Ascii.eqb (lower_byte sr) (lower_byte tr).
Proof.
  change (byte_of "a" - byte_of "A") with 32.
  rewrite !ascii_eqb_byte, !byte_of_lower. cbv zeta.
  pose proof (byte_of_range sr). pose proof (byte_of_range tr).
  destruct (Z.ltb_spec (byte_of tr) (byte_of sr)); cbv beta iota;
    rewrite !is_upper_range;
    generalize dependent (byte_of sr); generalize dependent (byte_of tr);
    intros y Hy x Hx Hxy;
    split_comparisons; cbn [andb]; split_comparisons; cbn [andb] in *;
    try reflexivity; lia.
Qed.

Lemma EqualFold_ascii (s : string) :
  forall t, isASCII s = true -> isASCII t = true ->
  EqualFold foldUnicode s t
    = String.eqb (map_bytes lower_byte s) (map_bytes lower_byte t).
Proof.
  induction s as [| sr s' IH]; intros [| tr t'] Hs Ht; try reflexivity.
  cbn [isASCII] in Hs, Ht. apply andb_true_iff in Hs, Ht.
  destruct Hs as [Hsr Hs], Ht as [Htr Ht]. apply Z.ltb_lt in Hsr, Htr.
  cbn [EqualFold map_bytes String.eqb].
  pose proof (byte_of_range sr). pose proof (byte_of_range tr).
  rewrite lor_below_RuneSelf by lia.
  rewrite <- fold_step_lower, (IH t' Hs Ht).
  destruct (Ascii.eqb tr sr); [reflexivity |]. cbv zeta.
  destruct (byte_of tr <? byte_of sr);
    match goal with |- context [if ?c then _ else false] => destruct c end; reflexivity.
Qed.

End EqualFoldASCII.

(** ** Resolving the client *)

Ltac unfold_flow :=
  unfold getClient, getClient_rootFile, bind, call, callWrap, pureCall, ret, fail,
    emit, outcome_of, trace_of in *.

Ltac break_inner :=
  match goal with
  | |- context [match ?x with _ => _ end] =>
      lazymatch x with
      | context [match _ with _ => _ end] => fail
      | _ => destruct x eqn:?
      end
  end.

Ltac break_flow := repeat (break_inner; cbn beta iota).

Section ClientResolution.

Variable w : World.

Lemma nonempty_true (s : string) : s <> "" -> nonempty s = true.
Proof.
  intros H. unfold nonempty. destruct (String.eqb s "") eqn:E; [| reflexivity].
  apply String.eqb_eq in E. contradiction.
Qed.

Lemma nonempty_false (s : string) : s = "" -> nonempty s = false.
Proof. intros ->. reflexivity. Qed.

Lemma usable_hint_iff (claims : revokeTokenClaims) :
  usable_hint w claims = true <->
  SHA claims <> "" /\
  exists a rest, Audience claims = a :: rest
                 /\ GoString.HasPrefix (toLower w a) "http" = true.
Proof.
  unfold usable_hint, nonempty. destruct claims as [sha sub aud]; cbn [SHA Audience].
  split.
  - intros H. apply andb_true_iff in H. destruct H as [H Hp].
    apply andb_true_iff in H. destruct H as [Hs Hl].
    split.
    + intros ->. discriminate.
    + destruct aud as [| a rest]; [discriminate |]. now exists a, rest.
  - intros [Hs (a & rest & -> & Hp)]. cbn [List.length hd].
    destruct (String.eqb sha "") eqn:E; [apply String.eqb_eq in E; contradiction |].
    cbn [negb andb]. rewrite Hp. reflexivity.
Qed.

(** The outcome of the token path, once the token parsed and the subject
    matched: with a usable hint the root is pinned and no file is touched. *)
Lemma getClient_with_hint (f : revokeFlow) (ctx : CliContext) (serial token caURL : string)
    (tok : JSONWebToken) (claims : revokeTokenClaims) :
  offline f = false -> token <> "" ->
  ParseCaURLIfExists w ctx = inl caURL ->
  ParseSigned w token = inl tok ->
  UnsafeClaimsWithoutVerification w tok = inl claims ->
  equalFold w (Subject claims) serial = true ->
  usable_hint w claims = true ->
  let url := if String.eqb caURL "" then hd "" (Audience claims) else caURL in
  getClient w f ctx serial token =
    (match NewClient w url [WithRootSHA256 (SHA claims)] with
     | inl c => Ok (OnlineClient c)
     | inr msg => Err (External msg)
     end,
     [EvPrintSelected "CA" url; EvNewClient url [WithRootSHA256 (SHA claims)]]).
Proof.
  intros Hoff Htok Hurl Hparse Hclaims Hsub Hhint url.
  unfold_flow. rewrite Hoff, Hurl, (nonempty_true _ Htok), Hparse, Hclaims, Hsub, Hhint.
  cbn [negb app]. fold url.
  destruct (NewClient w url [WithRootSHA256 (SHA claims)]); reflexivity.
Qed.

Lemma getClient_without_hint (f : revokeFlow) (ctx : CliContext) (serial token caURL : string)
    (tok : JSONWebToken) (claims : revokeTokenClaims) :
  offline f = false -> token <> "" ->
  ParseCaURLIfExists w ctx = inl caURL ->
  ParseSigned w token = inl tok ->
  UnsafeClaimsWithoutVerification w tok = inl claims ->
  equalFold w (Subject claims) serial = true ->
  usable_hint w claims = false ->
  getClient w f ctx serial token = getClient_rootFile w ctx caURL (root_flag ctx) [].
Proof.
  intros Hoff Htok Hurl Hparse Hclaims Hsub Hhint.
  unfold getClient, bind, pureCall, callWrap.
  rewrite Hoff, Hurl, (nonempty_true _ Htok), Hparse, Hclaims, Hsub, Hhint.
  cbn [negb app]. destruct (getClient_rootFile w ctx caURL (root_flag ctx) []).
  reflexivity.
Qed.

Lemma getClient_rootFile_never_ca_url (ctx : CliContext) (caURL rootFile : string)
    (options : list ClientOption) :
  outcome_of (getClient_rootFile w ctx caURL rootFile options) <> Err (RequiredFlag "ca-url").
Proof. unfold_flow. break_flow; cbn [fst]; discriminate. Qed.

Lemma getClient_token_never_ca_url (f : revokeFlow) (ctx : CliContext)
    (serial token : string) :
  offline f = false -> token <> "" ->
  outcome_of (getClient w f ctx serial token) <> Err (RequiredFlag "ca-url").
Proof.
  intros Hoff Htok. unfold_flow. rewrite Hoff, (nonempty_true _ Htok).
  break_flow; cbn [fst]; discriminate.
Qed.

Lemma usable_hint_false_iff (claims : revokeTokenClaims) :
  usable_hint w claims = false <->
  SHA claims = "" \/ Audience claims = [] \/
  exists a rest, Audience claims = a :: rest
                 /\ GoString.HasPrefix (toLower w a) "http" = false.
Proof.
  unfold usable_hint, nonempty. destruct claims as [sha sub aud]; cbn [SHA Audience].
  destruct (String.eqb sha "") eqn:E.
  - apply String.eqb_eq in E. subst sha. cbn [negb andb]. split; auto.
  - apply String.eqb_neq in E. cbn [negb andb]. destruct aud as [| a rest].
    + cbn [List.length]. split; auto.
    + replace (0 <? Z.of_nat (List.length (a :: rest))) with true
        by (symmetry; apply Z.ltb_lt; cbn [List.length]; lia).
      cbn [andb hd]. split.
      * intros H. right. right. now exists a, rest.
      * intros [H | [H | (a' & rest' & Heq & H)]];
          [contradiction | discriminate | now inversion Heq; subst].
Qed.

End ClientResolution.

(** C1 (amended).  Online, with a token that parses and whose subject
    matches the serial number: when the claims carry a non-empty fingerprint
    and an audience whose first entry starts with [http] once lowered, the
    resolver builds the client with the root pinned to the claimed
    fingerprint and touches no file, whether or not an explicit CA URL was
    given; the audience entry becomes the CA URL when no explicit CA URL was
    given, and the explicit CA URL is kept otherwise. *)
Theorem getClient_bootstrap_hint (w : World) (f : revokeFlow) (ctx : CliContext)
    (serial token caURL : string) (tok : JSONWebToken) (claims : revokeTokenClaims)
    (a : string) (rest : list string) :
  offline f = false -> token <> "" ->
  ParseCaURLIfExists w ctx = inl caURL ->
  ParseSigned w token = inl tok ->
  UnsafeClaimsWithoutVerification w tok = inl claims ->
  equalFold w (Subject claims) serial = true ->
  SHA claims <> "" -> Audience claims = a :: rest ->
  GoString.HasPrefix (toLower w a) "http" = true ->
  let url := if String.eqb caURL "" then a else caURL in
  let options := [WithRootSHA256 (SHA claims)] in
  getClient w f ctx serial token =
    (match NewClient w url options with
     | inl c => Ok (OnlineClient c)
     | inr msg => Err (External msg)
     end,
     [EvPrintSelected "CA" url; EvNewClient url options])
  /\ (caURL = "" -> url = a)
  /\ (caURL <> "" -> url = caURL)
  /\ existsb is_file_access (trace_of (getClient w f ctx serial token)) = false.
Proof.
  intros Hoff Htok Hurl Hparse Hclaims Hsub Hsha Haud Hpre url options.
  assert (Hhint : usable_hint w claims = true).
  { apply usable_hint_iff. split; [exact Hsha |]. now exists a, rest. }
  pose proof (getClient_with_hint w f ctx serial token caURL tok claims
                Hoff Htok Hurl Hparse Hclaims Hsub Hhint) as Hrun.
  cbv zeta in Hrun. rewrite Haud in Hrun. cbn [hd] in Hrun.
  fold url in Hrun. fold options in Hrun.
  split; [exact Hrun |]. split; [| split].
  - intros ->. reflexivity.
  - intros Hne. unfold url. apply String.eqb_neq in Hne. now rewrite Hne.
  - rewrite Hrun. reflexivity.
Qed.

Lemma getClient_bootstrap_hint_witness :
  getClient Demo.world Demo.online Demo.bare "123" "tok-boot" =
    (Ok (OnlineClient (mkClient 0)),
     [EvPrintSelected "CA" "HTTPS://ca.example.com/1.0/revoke";
      EvNewClient "HTTPS://ca.example.com/1.0/revoke" [WithRootSHA256 "4fe5f9f2"]]).
Proof.
  refine (proj1 (getClient_bootstrap_hint Demo.world Demo.online Demo.bare "123" "tok-boot" ""
                   (mkJWT 2)
                   {| SHA := "4fe5f9f2"; Subject := "123";
                      Audience := ["HTTPS://ca.example.com/1.0/revoke"] |}
                   "HTTPS://ca.example.com/1.0/revoke" [] _ _ _ _ _ _ _ _ _));
    try reflexivity; discriminate.
Defined.

(** C1 as stated fails in its last clause: with an explicit CA URL the
    fingerprint of the claims still pins the root, and no root file is read. *)
Lemma getClient_pins_fingerprint_beside_explicit_url :
  ParseCaURLIfExists Demo.world Demo.explicit_url = inl "https://ca.internal"
  /\ getClient Demo.world Demo.online Demo.explicit_url "123" "tok-boot" =
       (Ok (OnlineClient (mkClient 0)),
        [EvPrintSelected "CA" "https://ca.internal";
         EvNewClient "https://ca.internal" [WithRootSHA256 "4fe5f9f2"]]).
Proof. split; reflexivity. Qed.

(** C2.  Online and with a token, [getClient] returns a client only if the
    token parsed and the subject of its claims equals the serial number
    under [strings.EqualFold]; when they differ the result is the
    subject-and-serial mismatch error naming both.  On ASCII strings
    [strings.EqualFold] holds exactly when the two strings are equal once
    lowered.  Subject "123" passes against serial "123" and fails against
    "456". *)
Theorem getClient_subject_must_match (w : World) (f : revokeFlow) (ctx : CliContext)
    (serial token : string) :
  offline f = false -> token <> "" ->
  (forall c, outcome_of (getClient w f ctx serial token) = Ok c ->
     exists tok claims,
       ParseSigned w token = inl tok
       /\ UnsafeClaimsWithoutVerification w tok = inl claims
       /\ equalFold w (Subject claims) serial = true)
  /\ (forall caURL tok claims,
        ParseCaURLIfExists w ctx = inl caURL ->
        ParseSigned w token = inl tok ->
        UnsafeClaimsWithoutVerification w tok = inl claims ->
        equalFold w (Subject claims) serial = false ->
        getClient w f ctx serial token
          = (Err (TokenSubjectMismatch (Subject claims) serial), []))
  /\ (forall s t, GoString.isASCII s = true -> GoString.isASCII t = true ->
      (equalFold w s t = true <->
       GoString.map_bytes GoString.lower_byte s = GoString.map_bytes GoString.lower_byte t))
  /\ equalFold w "123" "123" = true
  /\ equalFold w "123" "456" = false.
Proof.
  intros Hoff Htok. split; [| split; [| split; [| split; reflexivity]]].
  3:{ intros s t Hs Ht. unfold equalFold. rewrite EqualFold_ascii by assumption.
      apply String.eqb_eq. }
  - intros c. unfold_flow. rewrite Hoff, (nonempty_true _ Htok).
    destruct (ParseCaURLIfExists w ctx) as [caURL | msg]; [| discriminate].
    destruct (ParseSigned w token) as [tok | msg] eqn:Hparse; [| discriminate].
    destruct (UnsafeClaimsWithoutVerification w tok) as [claims | msg] eqn:Hclaims;
      [| discriminate].
    destruct (equalFold w (Subject claims) serial) eqn:Hsub; [| discriminate].
    intros _. exists tok, claims. repeat split; assumption.
  - intros caURL tok claims Hurl Hparse Hclaims Hsub.
    unfold_flow. rewrite Hoff, Hurl, (nonempty_true _ Htok), Hparse, Hclaims, Hsub.
    reflexivity.
Qed.

Lemma getClient_subject_must_match_witness :
  getClient Demo.world Demo.online Demo.bare "456" "tok-plain"
    = (Err (TokenSubjectMismatch "123" "456"), [])
  /\ exists tok claims,
       ParseSigned Demo.world "tok-plain" = inl tok
       /\ UnsafeClaimsWithoutVerification Demo.world tok = inl claims
       /\ equalFold Demo.world (Subject claims) "123" = true.
Proof.
  assert (Htok : "tok-plain" <> "") by discriminate.
  split.
  - apply (proj1 (proj2 (getClient_subject_must_match Demo.world Demo.online Demo.bare
                           "456" "tok-plain" eq_refl Htok))
             "" (mkJWT 1) {| SHA := ""; Subject := "123"; Audience := [] |});
      reflexivity.
  - apply (proj1 (getClient_subject_must_match Demo.world Demo.online Demo.bare
                    "123" "tok-plain" eq_refl Htok)
             (OnlineClient (mkClient 0))).
    reflexivity.
Defined.

(** C8.  Online and without a token, an absent CA URL makes [getClient]
    fail with the required-flag error for [ca-url], before anything else
    happens.  With a token, [getClient] never returns that error. *)
Theorem getClient_ca_url_required (w : World) (f : revokeFlow) (ctx : CliContext)
    (serial token : string) :
  offline f = false ->
  (token = "" -> ParseCaURLIfExists w ctx = inl "" ->
   getClient w f ctx serial token = (Err (RequiredFlag "ca-url"), []))
  /\ (token <> "" ->
      outcome_of (getClient w f ctx serial token) <> Err (RequiredFlag "ca-url")).
Proof.
  intros Hoff. split.
  - intros -> Hurl. unfold_flow. rewrite Hoff, Hurl. reflexivity.
  - intros Htok. now apply getClient_token_never_ca_url.
Qed.

Lemma getClient_ca_url_required_witness :
  getClient Demo.world Demo.online Demo.bare "123" "" = (Err (RequiredFlag "ca-url"), [])
  /\ outcome_of (getClient Demo.world Demo.online Demo.bare "123" "tok-plain")
       <> Err (RequiredFlag "ca-url")
  /\ outcome_of (getClient Demo.world Demo.online Demo.bare "123" "tok-plain")
       = Ok (OnlineClient (mkClient 0)).
Proof.
  split; [| split].
  - apply (proj1 (getClient_ca_url_required Demo.world Demo.online Demo.bare "123" ""
                    eq_refl)); reflexivity.
  - apply (proj2 (getClient_ca_url_required Demo.world Demo.online Demo.bare "123"
                    "tok-plain" eq_refl)). discriminate.
  - reflexivity.
Defined.

(** C10.  Online, with a token whose claims parse but give no usable hint
    (no fingerprint, no audience, or a first audience entry that does not
    start with [http]) and without an explicit CA URL: [getClient] does not
    fail with the required-flag error for [ca-url].  Once the subject
    matches the serial number it goes on to the root file, the [--root] flag
    or else the default path, and builds the client with the empty string as
    CA URL; only a missing default root stops it, with the required-flag
    error for [root]. *)
Theorem getClient_token_without_hint (w : World) (f : revokeFlow) (ctx : CliContext)
    (serial token : string) (tok : JSONWebToken) (claims : revokeTokenClaims) :
  offline f = false -> token <> "" ->
  ParseCaURLIfExists w ctx = inl "" ->
  ParseSigned w token = inl tok ->
  UnsafeClaimsWithoutVerification w tok = inl claims ->
  (SHA claims = "" \/ Audience claims = [] \/
   exists a rest, Audience claims = a :: rest
                  /\ GoString.HasPrefix (toLower w a) "http" = false) ->
  outcome_of (getClient w f ctx serial token) <> Err (RequiredFlag "ca-url")
  /\ (equalFold w (Subject claims) serial = true ->
      let defaulted := String.eqb (root_flag ctx) "" in
      let rootFile := if defaulted then GetRootCAPath w else root_flag ctx in
      let options := [WithRootFile rootFile] in
      (defaulted = false \/ Stat w rootFile = true ->
       getClient w f ctx serial token =
         (match NewClient w "" options with
          | inl c => Ok (OnlineClient c)
          | inr msg => Err (External msg)
          end,
          (if defaulted then [EvStat rootFile] else [])
            ++ [EvPrintSelected "CA" ""; EvNewClient "" options]))
      /\ (defaulted = true -> Stat w rootFile = false ->
          getClient w f ctx serial token = (Err (RequiredFlag "root"), [EvStat rootFile]))).
Proof.
  intros Hoff Htok Hurl Hparse Hclaims Hnohint.
  apply usable_hint_false_iff in Hnohint.
  split.
  - apply getClient_token_never_ca_url; assumption.
  - intros Hsub defaulted rootFile options.
    rewrite (getClient_without_hint w f ctx serial token "" tok claims
               Hoff Htok Hurl Hparse Hclaims Hsub Hnohint).
    unfold_flow. subst options rootFile defaulted.
    destruct (String.eqb (root_flag ctx) "") eqn:Hroot; cbn [app].
    + split.
      * intros [Hd | Hstat]; [discriminate |]. rewrite Hstat.
        destruct (NewClient w "" [WithRootFile (GetRootCAPath w)]); reflexivity.
      * intros _ Hstat. rewrite Hstat. reflexivity.
    + split.
      * intros _. destruct (NewClient w "" [WithRootFile (root_flag ctx)]); reflexivity.
      * discriminate.
Qed.

Lemma getClient_token_without_hint_witness :
  getClient Demo.world Demo.online Demo.bare "123" "tok-plain" =
    (Ok (OnlineClient (mkClient 0)),
     [EvStat Demo.defaultRoot; EvPrintSelected "CA" "";
      EvNewClient "" [WithRootFile Demo.defaultRoot]]).
Proof.
  refine (proj1 (proj2 (getClient_token_without_hint Demo.world Demo.online Demo.bare
                          "123" "tok-plain" (mkJWT 1)
                          {| SHA := ""; Subject := "123"; Audience := [] |}
                          eq_refl _ eq_refl eq_refl eq_refl (or_introl eq_refl))
                   eq_refl) (or_intror eq_refl)).
  discriminate.
Defined.

(** ** The monad and the events of each step *)

Lemma outcome_bind {A B : Type} (m : M A) (k : A -> M B) :
  outcome_of (bind m k) =
    match outcome_of m with
    | Ok a => outcome_of (k a)
    | Err e => Err e
    | Panic msg => Panic msg
    end.
Proof.
  destruct m as [[a | e | msg] t]; cbn; [| reflexivity | reflexivity].
  destruct (k a). reflexivity.
Qed.

Lemma trace_bind {A B : Type} (m : M A) (k : A -> M B) :
  trace_of (bind m k) =
    trace_of m ++ match outcome_of m with
                  | Ok a => trace_of (k a)
                  | _ => []
                  end.
Proof.
  destruct m as [[a | e | msg] t]; cbn; [| now rewrite app_nil_r | now rewrite app_nil_r].
  destruct (k a). reflexivity.
Qed.

Lemma bind_ret {A B : Type} (a : A) (k : A -> M B) : bind (ret a) k = k a.
Proof. unfold bind, ret. destruct (k a). reflexivity. Qed.

Lemma In_trace_bind {A B : Type} (m : M A) (k : A -> M B) (ev : event) :
  In ev (trace_of (bind m k)) ->
  In ev (trace_of m) \/ exists a, outcome_of m = Ok a /\ In ev (trace_of (k a)).
Proof.
  rewrite trace_bind. intros H. apply in_app_or in H. destruct H as [H | H]; [now left |].
  right. destruct (outcome_of m) as [a | e | msg]; [| contradiction | contradiction].
  now exists a.
Qed.

Ltac unfold_steps :=
  unfold Revoke, mTLSTransport, GenerateToken, newRevokeFlow, getClient,
    getClient_rootFile, bind, call, callWrap, pureCall, ret, fail, panic, emit,
    outcome_of, trace_of in *.

Ltac no_such_event :=
  unfold_steps; break_flow; cbn [fst snd app In]; intuition discriminate.

Section Steps.

Variable w : World.

Lemma getClient_no_dispatch (f : revokeFlow) (ctx : CliContext) (serial token : string)
    (client : CaClient) (req : RevokeRequest) (tr : option Transport) :
  ~ In (EvRevoke client req tr) (trace_of (getClient w f ctx serial token)).
Proof. no_such_event. Qed.

Lemma mTLSTransport_no_dispatch (ctx : CliContext)
    (client : CaClient) (req : RevokeRequest) (tr : option Transport) :
  ~ In (EvRevoke client req tr) (trace_of (mTLSTransport w ctx)).
Proof. no_such_event. Qed.

Lemma newRevokeFlow_no_dispatch (ctx : CliContext) (certFile keyFile : string)
    (client : CaClient) (req : RevokeRequest) (tr : option Transport) :
  ~ In (EvRevoke client req tr) (trace_of (newRevokeFlow w ctx certFile keyFile)).
Proof. no_such_event. Qed.

Lemma GenerateToken_no_dispatch (f : revokeFlow) (ctx : CliContext) (subject : string)
    (client : CaClient) (req : RevokeRequest) (tr : option Transport) :
  ~ In (EvRevoke client req tr) (trace_of (GenerateToken w f ctx subject)).
Proof. no_such_event. Qed.

Lemma newRevokeFlow_no_panic (ctx : CliContext) (certFile keyFile msg : string) :
  outcome_of (newRevokeFlow w ctx certFile keyFile) <> Panic msg.
Proof. unfold_steps. break_flow; cbn [fst]; discriminate. Qed.

(** Every request [Revoke] hands to the client. *)
Lemma Revoke_event (f : revokeFlow) (ctx : CliContext) (serial token : string)
    (client : CaClient) (req : RevokeRequest) (tr : option Transport) :
  In (EvRevoke client req tr) (trace_of (Revoke w f ctx serial token)) ->
  outcome_of (getClient w f ctx serial token) = Ok client
  /\ snd (reasonCodeToNum w (reasonCode_flag ctx)) = None
  /\ req = {| Serial := serial;
              Reason := reason_flag ctx;
              ReasonCode := fst (reasonCodeToNum w (reasonCode_flag ctx));
              OTT := token;
              Passive := true |}
  /\ (token = "" -> exists t, tr = Some t /\ outcome_of (mTLSTransport w ctx) = Ok t)
  /\ (token <> "" -> tr = None).
Proof.
  unfold Revoke. intros H.
  apply In_trace_bind in H. destruct H as [H | (c & Hc & H)];
    [exfalso; revert H; apply getClient_no_dispatch |].
  destruct (reasonCodeToNum w (reasonCode_flag ctx)) as [code [err | ]] eqn:Hcode;
    [contradiction |].
  apply In_trace_bind in H. destruct H as [H | (otr & Htr & H)].
  - exfalso. destruct (String.eqb token ""); [| contradiction].
    apply In_trace_bind in H. destruct H as [H | (t & _ & H)]; [| contradiction].
    revert H. apply mTLSTransport_no_dispatch.
  - assert (Hev : EvRevoke c
                    {| Serial := serial; Reason := reason_flag ctx; ReasonCode := code;
                       OTT := token; Passive := true |} otr
                  = EvRevoke client req tr).
    { destruct (ClientRevoke w c _ otr); cbn in H; destruct H as [H | []]; exact H. }
    inversion Hev; subst. clear Hev H.
    split; [exact Hc |]. split; [reflexivity |]. split; [reflexivity |].
    destruct (String.eqb token "") eqn:Htok.
    + apply String.eqb_eq in Htok. subst token.
      rewrite outcome_bind in Htr.
      destruct (outcome_of (mTLSTransport w ctx)) as [t | e | msg] eqn:Ht;
        try discriminate.
      cbn in Htr. inversion Htr; subst. split; [| intros Hne; now elim Hne].
      intros _. now exists t.
    + apply String.eqb_neq in Htok. cbn in Htr. inversion Htr; subst.
      split; [intros Heq; contradiction | reflexivity].
Qed.

End Steps.

(** ** Dispatch *)

(** C3.  [Revoke] builds the mTLS transport exactly when the token is empty:
    with a token it reads neither the certificate, nor the key, nor the
    root pool, and whenever it calls the client the transport it passes is
    nil when a token is present and is the transport built from [--cert]
    and [--key] when the token is empty.  The request of every such call
    carries the serial number, the reason, the reason code resolved from the
    flag, the token, and [Passive = true]. *)
Theorem Revoke_dispatch (w : World) (f : revokeFlow) (ctx : CliContext)
    (serial token : string) :
  (token <> "" ->
   forall path,
     ~ In (EvReadFile path) (trace_of (Revoke w f ctx serial token))
     /\ ~ In (EvReadKey path) (trace_of (Revoke w f ctx serial token))
     /\ ~ In (EvReadCertPool path) (trace_of (Revoke w f ctx serial token)))
  /\ (forall client req tr,
      In (EvRevoke client req tr) (trace_of (Revoke w f ctx serial token)) ->
      (tr <> None <-> token = "")
      /\ (token <> "" -> tr = None)
      /\ (forall t, tr = Some t -> outcome_of (mTLSTransport w ctx) = Ok t)
      /\ Passive req = true
      /\ Serial req = serial
      /\ Reason req = reason_flag ctx
      /\ reasonCodeToNum w (reasonCode_flag ctx) = (ReasonCode req, None)
      /\ OTT req = token).
Proof.
  split.
  { intros Htok path. apply String.eqb_neq in Htok.
    unfold Revoke. rewrite Htok. unfold_steps. unfold nonempty. rewrite Htok.
    break_flow; cbn [fst snd app In]; intuition discriminate. }
  intros client req tr H. apply Revoke_event in H.
  destruct H as (_ & Hcode & -> & Hempty & Hfull). cbn.
  split; [| split; [exact Hfull | split]].
  - split.
    + intros Hsome. destruct (string_dec token "") as [He | Hne]; [exact He |].
      elim Hsome. now apply Hfull.
    + intros He. destruct (Hempty He) as (t & -> & _). discriminate.
  - intros t ->. destruct (string_dec token "") as [He | Hne].
    + destruct (Hempty He) as (t' & Heq & Hok). now inversion Heq; subst.
    + specialize (Hfull Hne). discriminate.
  - repeat split.
    destruct (reasonCodeToNum w (reasonCode_flag ctx)) as [code err].
    cbn in *. now subst.
Qed.

Lemma Revoke_dispatch_witness :
  (In (EvRevoke (OnlineClient (mkClient 0)) Demo.request_with_token None)
      (trace_of (Revoke Demo.world Demo.online Demo.bare "123" "tok-plain"))
   /\ Passive Demo.request_with_token = true
   /\ ~ In (EvReadKey "leaf.key")
          (trace_of (Revoke Demo.world Demo.online Demo.bare "123" "tok-plain")))
  /\ (In (EvRevoke (OnlineClient (mkClient 0)) Demo.request_mtls (Some Demo.transport))
         (trace_of (Revoke Demo.world Demo.online Demo.mtls "123" ""))
      /\ (Some Demo.transport <> None <-> "" = "")).
Proof.
  assert (H1 : In (EvRevoke (OnlineClient (mkClient 0)) Demo.request_with_token None)
                 (trace_of (Revoke Demo.world Demo.online Demo.bare "123" "tok-plain")))
    by (cbn; repeat (first [left; reflexivity | right])).
  assert (H2 : In (EvRevoke (OnlineClient (mkClient 0)) Demo.request_mtls
                     (Some Demo.transport))
                 (trace_of (Revoke Demo.world Demo.online Demo.mtls "123" "")))
    by (cbn; repeat (first [left; reflexivity | right])).
  assert (Htok : "tok-plain" <> "") by discriminate.
  split; [split; [exact H1 | split] | split; [exact H2 |]].
  - exact (proj1 (proj2 (proj2 (proj2
             (proj2 (Revoke_dispatch Demo.world Demo.online Demo.bare "123" "tok-plain")
                _ _ _ H1))))).
  - exact (proj1 (proj2 (proj1 (Revoke_dispatch Demo.world Demo.online Demo.bare "123"
                                  "tok-plain") Htok "leaf.key"))).
  - exact (proj1 (proj2 (Revoke_dispatch Demo.world Demo.online Demo.mtls "123" "")
                    _ _ _ H2)).
Defined.

(** ** The action *)

Section Action.

Variable w : World.

Lemma revokeAndReport_event (flow : revokeFlow) (ctx : CliContext) (serial token : string)
    (client : CaClient) (req : RevokeRequest) (tr : option Transport) :
  In (EvRevoke client req tr) (trace_of (revokeAndReport w flow ctx serial token)) ->
  In (EvRevoke client req tr) (trace_of (Revoke w flow ctx serial token)).
Proof.
  unfold revokeAndReport. intros H. apply In_trace_bind in H.
  destruct H as [H | (u & _ & H)]; [exact H |].
  cbn in H. destruct H as [H | []]. discriminate.
Qed.

Lemma action_after_gates (ctx : CliContext) (flow : revokeFlow) :
  gates_passed w ctx flow ->
  cert_flag ctx <> "" \/ key_flag ctx <> "" ->
  outcome_of (revokeCertificateAction w ctx) =
    if NArg ctx >? 0 then Err (NoPositionalArguments (AppName ctx) (CommandName ctx))
    else if String.eqb (cert_flag ctx) "" then Err (RequiredWithFlag "key" "cert")
    else if String.eqb (key_flag ctx) "" then Err (RequiredWithFlag "cert" "key")
    else
      match ReadCertificateBundle w (cert_flag ctx) with
      | inr msg => Err (External msg)
      | inl [] => Panic "index out of range [0] with length 0"
      | inl (c0 :: _) =>
          outcome_of (revokeAndReport w flow ctx (Strconv.Itoa (SerialNumber c0))
                        (token_flag ctx))
      end.
Proof.
  intros (Hcode & Hgate & Hflow) Hsupplied.
  unfold revokeCertificateAction.
  destruct (reasonCodeToNum w (reasonCode_flag ctx)) as [code [err |]];
    [discriminate |].
  replace (offline_flag ctx && negb (String.eqb (token_flag ctx) "")) with false.
  2:{ destruct Hgate as [-> | ->]; [reflexivity | now rewrite andb_false_r]. }
  rewrite outcome_bind, Hflow.
  replace (nonempty (cert_flag ctx) || nonempty (key_flag ctx)) with true.
  2:{ symmetry. apply orb_true_iff.
      destruct Hsupplied as [H | H]; [left | right]; now apply nonempty_true. }
  destruct (NArg ctx >? 0); [reflexivity |].
  destruct (String.eqb (cert_flag ctx) ""); [reflexivity |].
  destruct (String.eqb (key_flag ctx) ""); [reflexivity |].
  rewrite outcome_bind. unfold call.
  destruct (ReadCertificateBundle w (cert_flag ctx)) as [[| c0 rest] | msg]; reflexivity.
Qed.

Lemma action_fails_in_cert_key_branch (ctx : CliContext) :
  cert_flag ctx <> "" \/ key_flag ctx <> "" ->
  (NArg ctx >? 0) = true \/ cert_flag ctx = "" \/ key_flag ctx = "" ->
  exists e, outcome_of (revokeCertificateAction w ctx) = Err e.
Proof.
  intros Hsupplied Hbad.
  unfold revokeCertificateAction.
  destruct (reasonCodeToNum w (reasonCode_flag ctx)) as [code [err |]];
    [now exists err |].
  destruct (offline_flag ctx && negb (String.eqb (token_flag ctx) ""));
    [now eexists |].
  rewrite outcome_bind.
  destruct (outcome_of (newRevokeFlow w ctx (cert_flag ctx) (key_flag ctx)))
    as [flow | e | msg] eqn:Hflow;
    [| now exists e | exfalso; revert Hflow; apply newRevokeFlow_no_panic].
  replace (nonempty (cert_flag ctx) || nonempty (key_flag ctx)) with true.
  2:{ symmetry. apply orb_true_iff.
      destruct Hsupplied as [H | H]; [left | right]; now apply nonempty_true. }
  destruct (NArg ctx >? 0) eqn:Hn; [now eexists |].
  destruct (String.eqb (cert_flag ctx) "") eqn:Hc; [now eexists |].
  destruct (String.eqb (key_flag ctx) "") eqn:Hk; [now eexists |].
  apply String.eqb_neq in Hc, Hk.
  destruct Hbad as [Hbad | [Hbad | Hbad]]; [discriminate | contradiction | contradiction].
Qed.

End Action.

(** C5.  With [--offline] and a non-empty [--token] the action fails and
    emits no event at all, so no file has been touched.  The reason code is
    checked first (without any effect either); once it is accepted the
    failure is the incompatible-flags error for [offline] and [token]. *)
Theorem action_offline_token_incompatible (w : World) (ctx : CliContext) :
  offline_flag ctx = true -> token_flag ctx <> "" ->
  trace_of (revokeCertificateAction w ctx) = []
  /\ existsb is_file_access (trace_of (revokeCertificateAction w ctx)) = false
  /\ (exists e, outcome_of (revokeCertificateAction w ctx) = Err e)
  /\ (snd (reasonCodeToNum w (reasonCode_flag ctx)) = None ->
      revokeCertificateAction w ctx
        = (Err (IncompatibleFlagWithFlag "offline" "token"), [])).
Proof.
  intros Hoff Htok.
  assert (Hrun : revokeCertificateAction w ctx =
                 match snd (reasonCodeToNum w (reasonCode_flag ctx)) with
                 | Some err => (Err err, [])
                 | None => (Err (IncompatibleFlagWithFlag "offline" "token"), [])
                 end).
  { unfold revokeCertificateAction, fail.
    destruct (reasonCodeToNum w (reasonCode_flag ctx)) as [code [err |]];
      [reflexivity |].
    apply String.eqb_neq in Htok. rewrite Hoff, Htok. reflexivity. }
  rewrite Hrun.
  destruct (snd (reasonCodeToNum w (reasonCode_flag ctx))) as [err |].
  - repeat split; [now exists err | discriminate].
  - repeat split. now eexists.
Qed.

Lemma action_offline_token_incompatible_witness :
  revokeCertificateAction Demo.world Demo.offline_with_token
    = (Err (IncompatibleFlagWithFlag "offline" "token"), []).
Proof.
  assert (Htok : token_flag Demo.offline_with_token <> "") by discriminate.
  exact (proj2 (proj2 (proj2 (action_offline_token_incompatible Demo.world
                                Demo.offline_with_token eq_refl Htok))) eq_refl).
Defined.

(** C6.  With [--cert] or [--key] given: a positional argument makes the
    action fail, with the no-positional-arguments error once the earlier
    gates are passed; and every request the action dispatches carries the
    serial number of the first certificate of the bundle read from
    [--cert], and is dispatched only when there is no positional argument. *)
Theorem action_cert_key_serial (w : World) (ctx : CliContext) :
  cert_flag ctx <> "" \/ key_flag ctx <> "" ->
  (NArg ctx > 0 ->
   (exists e, outcome_of (revokeCertificateAction w ctx) = Err e)
   /\ forall flow, gates_passed w ctx flow ->
        outcome_of (revokeCertificateAction w ctx)
          = Err (NoPositionalArguments (AppName ctx) (CommandName ctx)))
  /\ (forall client req tr,
        In (EvRevoke client req tr) (trace_of (revokeCertificateAction w ctx)) ->
        NArg ctx = 0
        /\ exists c0 rest,
             ReadCertificateBundle w (cert_flag ctx) = inl (c0 :: rest)
             /\ Serial req = Strconv.Itoa (SerialNumber c0)).
Proof.
  intros Hsupplied. split.
  - intros Hn. assert (Hgt : (NArg ctx >? 0) = true) by (rewrite Z.gtb_ltb; apply Z.ltb_lt; lia).
    split.
    + apply action_fails_in_cert_key_branch; auto.
    + intros flow Hg. rewrite (action_after_gates w ctx flow Hg Hsupplied), Hgt.
      reflexivity.
  - intros client req tr. unfold revokeCertificateAction.
    destruct (reasonCodeToNum w (reasonCode_flag ctx)) as [code [err |]];
      [intros [] |].
    destruct (offline_flag ctx && negb (String.eqb (token_flag ctx) ""));
      [intros [] |].
    intros H. apply In_trace_bind in H.
    destruct H as [H | (flow & _ & H)];
      [exfalso; revert H; apply newRevokeFlow_no_dispatch |].
    replace (nonempty (cert_flag ctx) || nonempty (key_flag ctx)) with true in H.
    2:{ symmetry. apply orb_true_iff.
        destruct Hsupplied as [Hs | Hs]; [left | right]; now apply nonempty_true. }
    destruct (NArg ctx >? 0) eqn:Hn; [destruct H |].
    destruct (String.eqb (cert_flag ctx) ""); [destruct H |].
    destruct (String.eqb (key_flag ctx) ""); [destruct H |].
    split.
    { rewrite Z.gtb_ltb in Hn. apply Z.ltb_ge in Hn. unfold NArg in *. lia. }
    apply In_trace_bind in H. unfold call in H.
    destruct (ReadCertificateBundle w (cert_flag ctx)) as [certs | msg].
    + destruct H as [H | (certs' & Hc & H)].
      * cbn in H. destruct H as [H | []]. discriminate.
      * cbn in Hc. inversion Hc; subst certs'.
        destruct certs as [| c0 rest]; [destruct H |].
        exists c0, rest. split; [reflexivity |].
        apply revokeAndReport_event, Revoke_event in H.
        destruct H as (_ & _ & -> & _). reflexivity.
    + destruct H as [H | (certs' & Hc & _)]; [| discriminate].
      cbn in H. destruct H as [H | []]. discriminate.
Qed.

Lemma action_cert_key_serial_witness :
  outcome_of (revokeCertificateAction Demo.world (Demo.with_args ["123"] Demo.mtls))
    = Err (NoPositionalArguments "step" "revoke")
  /\ (NArg Demo.mtls = 0
      /\ exists c0 rest,
           ReadCertificateBundle Demo.world (cert_flag Demo.mtls) = inl (c0 :: rest)
           /\ Serial Demo.request_mtls = Strconv.Itoa (SerialNumber c0)).
Proof.
  split.
  - assert (Hs : cert_flag (Demo.with_args ["123"] Demo.mtls) <> ""
                 \/ key_flag (Demo.with_args ["123"] Demo.mtls) <> "")
      by (left; discriminate).
    assert (Hn : NArg (Demo.with_args ["123"] Demo.mtls) > 0) by reflexivity.
    apply (proj2 (proj1 (action_cert_key_serial Demo.world _ Hs) Hn) Demo.online).
    repeat split. now left.
  - assert (Hs : cert_flag Demo.mtls <> "" \/ key_flag Demo.mtls <> "")
      by (left; discriminate).
    apply (proj2 (action_cert_key_serial Demo.world Demo.mtls Hs)
             (OnlineClient (mkClient 0)) Demo.request_mtls (Some Demo.transport)).
    cbn. repeat (first [left; reflexivity | right]).
Defined.

(** C7 (amended).  With exactly one of [--cert] and [--key] given the action
    fails.  Which error it is depends on the checks that come first: once
    the reason code is accepted, the offline/token gate is passed and
    [newRevokeFlow] has returned a flow, a positional argument gives the
    no-positional-arguments error, and without a positional argument the
    failure is the required-with error naming the missing flag: [key] when
    only [--cert] is given, [cert] when only [--key] is given. *)
Theorem action_cert_key_together (w : World) (ctx : CliContext) :
  (cert_flag ctx <> "" /\ key_flag ctx = "")
  \/ (cert_flag ctx = "" /\ key_flag ctx <> "") ->
  (exists e, outcome_of (revokeCertificateAction w ctx) = Err e)
  /\ (forall flow, gates_passed w ctx flow -> NArg ctx = 0 ->
      (key_flag ctx = "" ->
       outcome_of (revokeCertificateAction w ctx) = Err (RequiredWithFlag "cert" "key"))
      /\ (cert_flag ctx = "" ->
          outcome_of (revokeCertificateAction w ctx) = Err (RequiredWithFlag "key" "cert")))
  /\ (forall flow, gates_passed w ctx flow -> NArg ctx > 0 ->
      outcome_of (revokeCertificateAction w ctx)
        = Err (NoPositionalArguments (AppName ctx) (CommandName ctx))).
Proof.
  intros Hone.
  assert (Hsupplied : cert_flag ctx <> "" \/ key_flag ctx <> "") by tauto.
  split; [| split].
  - apply action_fails_in_cert_key_branch; [exact Hsupplied | tauto].
  - intros flow Hg Hn.
    rewrite (action_after_gates w ctx flow Hg Hsupplied), Hn. cbn [Z.gtb Z.compare].
    split.
    + intros Hk. destruct Hone as [[Hc _] | [_ Hk']]; [| contradiction].
      apply String.eqb_neq in Hc. rewrite Hc, Hk. reflexivity.
    + intros Hc. rewrite Hc. reflexivity.
  - intros flow Hg Hn.
    rewrite (action_after_gates w ctx flow Hg Hsupplied).
    replace (NArg ctx >? 0) with true; [reflexivity |].
    symmetry. rewrite Z.gtb_ltb. apply Z.ltb_lt. lia.
Qed.

Lemma action_cert_key_together_witness :
  outcome_of (revokeCertificateAction Demo.world Demo.cert_only)
    = Err (RequiredWithFlag "cert" "key").
Proof.
  assert (Hone : (cert_flag Demo.cert_only <> "" /\ key_flag Demo.cert_only = "")
                 \/ (cert_flag Demo.cert_only = "" /\ key_flag Demo.cert_only <> ""))
    by (left; split; [discriminate | reflexivity]).
  assert (Hg : gates_passed Demo.world Demo.cert_only Demo.online)
    by (repeat split; now left).
  exact (proj1 (proj1 (proj2 (action_cert_key_together Demo.world Demo.cert_only Hone))
                  Demo.online Hg eq_refl) eq_refl).
Defined.

(** C7 as stated fails: with [--cert] given, [--key] not given and one
    positional argument, the action fails with the no-positional-arguments
    error of lines 237-239, which comes before the required-with checks. *)
Lemma action_cert_without_key_and_argument :
  cert_flag Demo.cert_only_with_serial <> ""
  /\ key_flag Demo.cert_only_with_serial = ""
  /\ revokeCertificateAction Demo.world Demo.cert_only_with_serial
       = (Err (NoPositionalArguments "step" "revoke"), []).
Proof. split; [discriminate | split; reflexivity]. Qed.

(** C9.  With [--cert], [--key] and a token, no positional argument, online
    (a token with [--offline] is stopped by the earlier gate) and an accepted
    reason code: the action goes on exactly as the cert/key branch does, it
    reads the bundle and dispatches with the serial number of its first
    certificate and the token; the incompatibility of [cert] and [token] is
    computed and dropped, and no incompatible-flags error is returned. *)
Theorem action_token_with_cert_proceeds (w : World) (ctx : CliContext) :
  cert_flag ctx <> "" -> key_flag ctx <> "" -> token_flag ctx <> "" ->
  Args ctx = [] -> offline_flag ctx = false ->
  snd (reasonCodeToNum w (reasonCode_flag ctx)) = None ->
  revokeCertificateAction w ctx =
    (cert <- call (EvReadCertificateBundle (cert_flag ctx))
               (ReadCertificateBundle w (cert_flag ctx)) ;;
     match cert with
     | [] => panic "index out of range [0] with length 0"
     | c0 :: _ =>
         revokeAndReport w {| offlineCA := None; offline := false |} ctx
           (Strconv.Itoa (SerialNumber c0)) (token_flag ctx)
     end)
  /\ forall flag other,
       outcome_of (revokeCertificateAction w ctx) <> Err (IncompatibleFlagWithFlag flag other).
Proof.
  intros Hc Hk Ht Hargs Hoff Hcode.
  assert (Hrun : revokeCertificateAction w ctx =
    (cert <- call (EvReadCertificateBundle (cert_flag ctx))
               (ReadCertificateBundle w (cert_flag ctx)) ;;
     match cert with
     | [] => panic "index out of range [0] with length 0"
     | c0 :: _ =>
         revokeAndReport w {| offlineCA := None; offline := false |} ctx
           (Strconv.Itoa (SerialNumber c0)) (token_flag ctx)
     end)).
  { unfold revokeCertificateAction, newRevokeFlow.
    destruct (reasonCodeToNum w (reasonCode_flag ctx)) as [code [err |]];
      [discriminate |].
    rewrite Hoff. cbn [andb]. rewrite bind_ret.
    rewrite (nonempty_true _ Hc). cbn [orb].
    unfold NArg. rewrite Hargs. cbn [List.length Z.of_nat Z.gtb Z.compare].
    apply String.eqb_neq in Hc, Hk. rewrite Hc, Hk. reflexivity. }
  split; [exact Hrun |].
  intros flag other. rewrite Hrun. unfold revokeAndReport.
  destruct (reasonCodeToNum w (reasonCode_flag ctx)) as [code [err |]] eqn:Hrc;
    [discriminate |].
  unfold Revoke. rewrite Hrc.
  apply String.eqb_neq in Ht. rewrite Ht.
  unfold_steps. cbn [offline]. unfold nonempty. rewrite Ht. cbn [negb].
  break_flow; cbn [fst]; discriminate.
Qed.

Lemma action_token_with_cert_proceeds_witness :
  revokeCertificateAction Demo.world Demo.cert_and_token =
    (Ok tt,
     [EvReadCertificateBundle "leaf.crt"; EvStat Demo.defaultRoot; EvPrintSelected "CA" "";
      EvNewClient "" [WithRootFile Demo.defaultRoot];
      EvRevoke (OnlineClient (mkClient 0)) Demo.request_with_token None;
      EvPrintf ("Certificate with Serial Number 123 has been revoked." ++ newline)%string]).
Proof.
  assert (Hc : cert_flag Demo.cert_and_token <> "") by discriminate.
  assert (Hk : key_flag Demo.cert_and_token <> "") by discriminate.
  assert (Ht : token_flag Demo.cert_and_token <> "") by discriminate.
  rewrite (proj1 (action_token_with_cert_proceeds Demo.world Demo.cert_and_token
                    Hc Hk Ht eq_refl eq_refl eq_refl)).
  reflexivity.
Defined.

(** * Further properties *)

(** ** Reason codes: names, numbers and errors *)

Section ReasonCodeMore.

Import GoString Strconv.

Variable lowerUnicode : string -> string.

Lemma digits_from_decimal (s : string) :
  forall n v, digits_from s n = Some v -> all_decimal s = true.
Proof.
  induction s as [| c r IH]; intros n v H; [reflexivity |].
  cbn [digits_from] in H. cbn [all_decimal]. unfold is_decimal_byte.
  destruct (digit_val c) as [d |]; [| discriminate].
  rewrite orb_true_r. cbn [andb]. exact (IH _ _ H).
Qed.

Lemma decimal_plain (s : string) :
  all_decimal s = true ->
  remove_spaces s = s /\ isASCII s = true /\ map_bytes lower_byte s = s.
Proof.
  induction s as [| c r IH]; intros Hs; [repeat split |].
  cbn [all_decimal] in Hs. apply andb_true_iff in Hs. destruct Hs as [Hc Hr].
  destruct (IH Hr) as (IH1 & IH2 & IH3).
  cbn [remove_spaces isASCII map_bytes]. rewrite IH1, IH2, IH3.
  destruct (decimal_byte_cases c Hc) as [-> | (d & Hd & ->)]; [repeat split |].
  destruct (digit_char_plain d Hd) as (-> & -> & ->). repeat split.
Qed.

(** A string [Atoi] accepts is no name: it is not empty, normalization
    leaves it alone, and the table has no such key. *)
Lemma Atoi_not_a_name (s : string) (n : Z) :
  Atoi s = Some n ->
  s <> "" /\ normalize lowerUnicode s = s /\ map_lookup RevocationReasonCodes s = None.
Proof.
  destruct s as [| c r]; [discriminate |].
  unfold Atoi. intros H. split; [discriminate |].
  destruct (Ascii.eqb c "-" || Ascii.eqb c "+") eqn:Hsign.
  - destruct r as [| c' r']; [discriminate |].
    destruct (digits_from (String c' r') 0) as [v |] eqn:Hd; [| discriminate].
    apply digits_from_decimal in Hd. destruct (decimal_plain _ Hd) as (H1 & H2 & H3).
    apply orb_true_iff in Hsign.
    destruct Hsign as [Hc | Hc]; apply Ascii.eqb_eq in Hc; subst c.
    + assert (Hall : all_decimal (String "-" (String c' r')) = true)
        by (cbn [all_decimal] in *; exact Hd).
      split; [now apply normalize_decimal | now apply lookup_decimal].
    + split; [| reflexivity].
      unfold normalize, ToLower.
      change (remove_spaces (String "+" (String c' r')))
        with (String "+" (remove_spaces (String c' r'))).
      rewrite H1.
      change (isASCII (String "+" (String c' r'))) with (isASCII (String c' r')).
      rewrite H2.
      change (map_bytes lower_byte (String "+" (String c' r')))
        with (String "+" (map_bytes lower_byte (String c' r'))).
      rewrite H3. reflexivity.
  - destruct (digits_from (String c r) 0) as [v |] eqn:Hd; [| discriminate].
    apply digits_from_decimal in Hd. split.
    + now apply normalize_decimal.
    + now apply lookup_decimal.
Qed.

Lemma table_values (k : string) (v : Z) :
  map_lookup RevocationReasonCodes k = Some v -> 0 <= v <= 10 /\ v <> 7.
Proof.
  unfold RevocationReasonCodes. cbn [map_lookup].
  repeat match goal with
         | |- context [String.eqb ?a k] => destruct (String.eqb a k)
         end;
    intros H; inversion H; subst; cbv; split; try discriminate; split; discriminate.
Qed.

End ReasonCodeMore.

(** X1.  A reason code that [ReasonCodeToNum] returns without error lies in
    [0,10]. *)
Theorem ReasonCodeToNum_success_in_range (lowerUnicode : string -> string)
    (rc : string) (code : Z) :
  ReasonCodeToNum lowerUnicode rc = (code, None) -> 0 <= code <= 10.
Proof.
  unfold ReasonCodeToNum. destruct (String.eqb rc ""); [intros H; inversion H; lia |].
  destruct (Strconv.Atoi rc) as [n |].
  - destruct ((n <? ocsp.Unspecified) || (n >? ocsp.AACompromise)) eqn:Hb;
      [discriminate |].
    intros H. inversion H; subst. apply orb_false_iff in Hb. destruct Hb as [H0 H10].
    apply Z.ltb_ge in H0. rewrite Z.gtb_ltb in H10. apply Z.ltb_ge in H10.
    unfold ocsp.Unspecified, ocsp.AACompromise in *. lia.
  - destruct (map_lookup RevocationReasonCodes (normalize lowerUnicode rc)) as [v |] eqn:Hl;
      [| discriminate].
    intros H. inversion H; subst. now apply table_values in Hl.
Qed.

Lemma ReasonCodeToNum_success_in_range_witness : 0 <= 9 <= 10.
Proof.
  apply (ReasonCodeToNum_success_in_range (fun s => s) "Privilege Withdrawn" 9).
  reflexivity.
Defined.

(** X2.  When [ReasonCodeToNum] fails, the input was either a number that
    fits [int] and lies outside [0,10], and then the value is -1 and the
    error reports that number with the bounds 0 and 10, or a non-empty
    string that is no number and whose normalized form is no table key, and
    then the value is 0 and the error names the input as given. *)
Theorem ReasonCodeToNum_failure (lowerUnicode : string -> string)
    (rc : string) (code : Z) (e : error) :
  ReasonCodeToNum lowerUnicode rc = (code, Some e) ->
  (exists n, Strconv.Atoi rc = Some n /\ (n < 0 \/ 10 < n)
             /\ code = -1 /\ e = ReasonCodeOutOfBounds n 0 10)
  \/ (Strconv.Atoi rc = None /\ rc <> ""
      /\ map_lookup RevocationReasonCodes (normalize lowerUnicode rc) = None
      /\ code = 0 /\ e = UnrecognizedReasonCode rc).
Proof.
  unfold ReasonCodeToNum. destruct (String.eqb rc "") eqn:He; [discriminate |].
  apply String.eqb_neq in He.
  destruct (Strconv.Atoi rc) as [n |].
  - destruct ((n <? ocsp.Unspecified) || (n >? ocsp.AACompromise)) eqn:Hb;
      [| discriminate].
    intros H. inversion H; subst. left. exists n. repeat split.
    apply orb_true_iff in Hb. rewrite Z.gtb_ltb in Hb.
    unfold ocsp.Unspecified, ocsp.AACompromise in Hb.
    destruct Hb as [Hb | Hb]; apply Z.ltb_lt in Hb; lia.
  - destruct (map_lookup RevocationReasonCodes (normalize lowerUnicode rc)) as [v |] eqn:Hl;
      [discriminate |].
    intros H. inversion H; subst. right. repeat split; assumption.
Qed.

Lemma ReasonCodeToNum_failure_witness :
  (exists n, Strconv.Atoi "-3" = Some n /\ (n < 0 \/ 10 < n)
             /\ -1 = -1 /\ ReasonCodeOutOfBounds (-3) 0 10 = ReasonCodeOutOfBounds n 0 10)
  \/ (Strconv.Atoi "-3" = None /\ "-3" <> ""
      /\ map_lookup RevocationReasonCodes (normalize (fun s => s) "-3") = None
      /\ -1 = 0 /\ ReasonCodeOutOfBounds (-3) 0 10 = UnrecognizedReasonCode "-3").
Proof.
  apply (ReasonCodeToNum_failure (fun s => s) "-3" (-1) (ReasonCodeOutOfBounds (-3) 0 10)).
  reflexivity.
Defined.

(** X3.  Every spelling whose normalized form (spaces removed, lowered) is a
    key of the table resolves to that key's code: the numeric reading never
    takes such a string first. *)
Theorem ReasonCodeToNum_name (lowerUnicode : string -> string) (rc : string) (v : Z) :
  map_lookup RevocationReasonCodes (normalize lowerUnicode rc) = Some v ->
  ReasonCodeToNum lowerUnicode rc = (v, None).
Proof.
  intros Hl. unfold ReasonCodeToNum.
  destruct (String.eqb rc "") eqn:He.
  { apply String.eqb_eq in He. subst rc. discriminate. }
  destruct (Strconv.Atoi rc) as [n |] eqn:Ha.
  - destruct (Atoi_not_a_name lowerUnicode rc n Ha) as (_ & Hn & Hnone).
    rewrite Hn, Hnone in Hl. discriminate.
  - rewrite Hl. reflexivity.
Qed.

Lemma ReasonCodeToNum_name_witness :
  ReasonCodeToNum (fun s => s) " cessation Of OPERATION " = (5, None).
Proof.
  apply ReasonCodeToNum_name. reflexivity.
Defined.

(** X4.  Code 7 is returned for numeric input only: no name resolves to it,
    and a space inside a number is not removed before the number is read. *)
Theorem ReasonCodeToNum_seven_is_numeric (lowerUnicode : string -> string) (rc : string) :
  (ReasonCodeToNum lowerUnicode rc = (7, None) -> Strconv.Atoi rc = Some 7)
  /\ (forall n, Strconv.Atoi rc = Some n ->
      ReasonCodeToNum lowerUnicode (String " " rc)
        = (0, Some (UnrecognizedReasonCode (String " " rc)))).
Proof.
  split.
  - unfold ReasonCodeToNum. destruct (String.eqb rc ""); [discriminate |].
    destruct (Strconv.Atoi rc) as [n |].
    + destruct ((n <? ocsp.Unspecified) || (n >? ocsp.AACompromise)); [discriminate |].
      intros H. now inversion H.
    + destruct (map_lookup RevocationReasonCodes (normalize lowerUnicode rc)) as [v |] eqn:Hl;
        [| discriminate].
      intros H. inversion H; subst. apply table_values in Hl. now destruct Hl.
  - intros n Ha.
    destruct (Atoi_not_a_name lowerUnicode rc n Ha) as (_ & Hn & Hnone).
    unfold ReasonCodeToNum. cbn [String.eqb].
    assert (Hsp : Strconv.Atoi (String " " rc) = None).
    { unfold Strconv.Atoi. cbn [Ascii.eqb]. cbv beta iota. cbn [orb].
      cbn [Strconv.digits_from]. reflexivity. }
    rewrite Hsp.
    assert (Hnorm : normalize lowerUnicode (String " " rc) = normalize lowerUnicode rc)
      by reflexivity.
    rewrite Hnorm, Hn, Hnone. reflexivity.
Qed.

Lemma ReasonCodeToNum_seven_is_numeric_witness :
  Strconv.Atoi "007" = Some 7
  /\ ReasonCodeToNum (fun s => s) " 7" = (0, Some (UnrecognizedReasonCode " 7")).
Proof.
  split.
  - apply (proj1 (ReasonCodeToNum_seven_is_numeric (fun s => s) "007")). reflexivity.
  - apply (proj2 (ReasonCodeToNum_seven_is_numeric (fun s => s) "7") 7). reflexivity.
Defined.

(** ** The steps: what each one emits and returns *)

Section StepFacts.

Variable w : World.

Lemma getClient_events (f : revokeFlow) (ctx : CliContext) (serial token : string)
    (ev : event) :
  In ev (trace_of (getClient w f ctx serial token)) ->
  offline f = false
  /\ ((ev = EvStat (GetRootCAPath w) /\ root_flag ctx = "")
      \/ (exists url, ev = EvPrintSelected "CA" url)
      \/ (exists url options, ev = EvNewClient url options)).
Proof.
  unfold_flow. destruct (offline f); [intros [] |].
  intros H. split; [reflexivity |]. revert H.
  break_flow; cbn [fst snd app In];
    repeat match goal with
           | H : (_ =? _)%string = true |- _ => apply String.eqb_eq in H
           end;
    intuition (subst; eauto).
Qed.

Lemma mTLSTransport_events (ctx : CliContext) (ev : event) :
  In ev (trace_of (mTLSTransport w ctx)) ->
  ev = EvReadFile (cert_flag ctx)
  \/ ev = EvReadKey (key_flag ctx)
  \/ (ev = EvStat (GetRootCAPath w) /\ root_flag ctx = "")
  \/ ev = EvReadCertPool (if String.eqb (root_flag ctx) "" then GetRootCAPath w
                          else root_flag ctx).
Proof.
  unfold_steps.
  break_flow; cbn [fst snd app In];
    repeat match goal with
           | H : (_ =? _)%string = true |- _ => apply String.eqb_eq in H
           end;
    intuition (subst; eauto).
Qed.

Lemma GenerateToken_events (f : revokeFlow) (ctx : CliContext) (subject : string)
    (ev : event) :
  In ev (trace_of (GenerateToken w f ctx subject)) ->
  (offline f = true /\ ev = EvOfflineGenerateToken subject)
  \/ (offline f = false
      /\ ((ev = EvStat (GetRootCAPath w) /\ root_flag ctx = "")
          \/ (subject = "" /\ exists msg, ev = EvPrompt msg)
          \/ (exists s url root, ev = EvNewTokenFlow s url root))).
Proof.
  unfold_steps. destruct (offline f).
  - break_flow; cbn [fst snd app In]; intuition (subst; eauto).
  - intros H. right. split; [reflexivity |]. revert H.
    break_flow; cbn [fst snd app In];
      repeat match goal with
             | H : (_ =? _)%string = true |- _ => apply String.eqb_eq in H
             end;
      intuition (subst; eauto 6).
Qed.

Lemma newRevokeFlow_events (ctx : CliContext) (certFile keyFile : string) (ev : event) :
  In ev (trace_of (newRevokeFlow w ctx certFile keyFile)) ->
  offline_flag ctx = true
  /\ (ev = EvNewOfflineCA (ca_config_flag ctx)
      \/ (ev = EvVerifyClientCert certFile keyFile
          /\ (certFile <> "" \/ keyFile <> ""))).
Proof.
  unfold_steps. destruct (offline_flag ctx); [| intros []].
  intros H. split; [reflexivity |]. revert H.
  unfold nonempty.
  destruct (String.eqb certFile "") eqn:Hc; destruct (String.eqb keyFile "") eqn:Hk;
    try apply String.eqb_neq in Hc; try apply String.eqb_neq in Hk;
    cbn [negb orb]; break_flow; cbn [fst snd app In]; intuition (subst; eauto).
Qed.

End StepFacts.

Lemma nonempty_inv (s : string) : nonempty s = true -> s <> "".
Proof. unfold nonempty. intros H ->. discriminate. Qed.

Ltac string_facts :=
  repeat match goal with
         | H : (_ =? _)%string = true |- _ => apply String.eqb_eq in H
         | H : (_ =? _)%string = false |- _ => apply String.eqb_neq in H
         | H : nonempty _ = true |- _ => apply nonempty_inv in H
         end.

Ltac split_or_hyps :=
  repeat match goal with
         | H : _ \/ _ |- _ => destruct H
         | H : False |- _ => destruct H
         end.

(** X5.  Every client [getClient] builds has exactly one trust anchor: the
    fingerprint claimed by a token with a usable hint, or the [--root] file,
    or the default root file after it was found on disk; and the endpoint
    it is built for has been printed. *)
Theorem getClient_trust_anchor (w : World) (f : revokeFlow) (ctx : CliContext)
    (serial token url : string) (options : list ClientOption) :
  In (EvNewClient url options) (trace_of (getClient w f ctx serial token)) ->
  offline f = false
  /\ In (EvPrintSelected "CA" url) (trace_of (getClient w f ctx serial token))
  /\ ((token <> ""
       /\ exists tok claims,
            ParseSigned w token = inl tok
            /\ UnsafeClaimsWithoutVerification w tok = inl claims
            /\ usable_hint w claims = true
            /\ options = [WithRootSHA256 (SHA claims)])
      \/ (root_flag ctx <> "" /\ options = [WithRootFile (root_flag ctx)])
      \/ (root_flag ctx = "" /\ Stat w (GetRootCAPath w) = true
          /\ options = [WithRootFile (GetRootCAPath w)])).
Proof.
  unfold_flow. destruct (offline f); [intros [] |].
  break_flow; cbn [fst snd app In]; intros H; split_or_hyps; try discriminate;
    match goal with
    | H : EvNewClient _ _ = EvNewClient _ _ |- _ => inversion H; subst; clear H
    end;
    string_facts;
    (split; [reflexivity |]); (split; [auto 10 |]);
    first [ left; split; [assumption |]; do 2 eexists; repeat split; eassumption
          | right; left; split; [assumption | reflexivity]
          | right; right; repeat split; assumption ].
Qed.

Lemma getClient_trust_anchor_witness :
  root_flag Demo.bare = "" /\ Stat Demo.world (GetRootCAPath Demo.world) = true.
Proof.
  destruct (getClient_trust_anchor Demo.world Demo.online Demo.bare "123" "tok-plain" ""
              [WithRootFile Demo.defaultRoot])
    as (_ & _ & [(_ & tok & claims & _ & _ & _ & Hopts) | [(Hroot & _) | (Hroot & Hstat & _)]]).
  - cbn. repeat (first [left; reflexivity | right]).
  - discriminate Hopts.
  - elim Hroot. reflexivity.
  - split; assumption.
Defined.

(** X6.  A token that does not parse, or whose claims cannot be read, makes
    [getClient] fail with the cause wrapped as an error about [--token],
    and nothing has been printed, read or built by then; the same holds for
    a subject that does not match the serial number.  No other failure of
    [getClient] is a wrapped error. *)
Theorem getClient_token_errors (w : World) (f : revokeFlow) (ctx : CliContext)
    (serial token : string) :
  (forall cause msg,
     outcome_of (getClient w f ctx serial token) = Err (Wrap cause msg) ->
     token <> "" /\ msg = "error parsing flag '--token'"
     /\ trace_of (getClient w f ctx serial token) = []
     /\ (ParseSigned w token = inr cause
         \/ exists tok, ParseSigned w token = inl tok
                        /\ UnsafeClaimsWithoutVerification w tok = inr cause))
  /\ (forall subject serial',
        outcome_of (getClient w f ctx serial token)
          = Err (TokenSubjectMismatch subject serial') ->
        serial' = serial /\ trace_of (getClient w f ctx serial token) = []).
Proof.
  split.
  - intros cause msg. unfold_flow. destruct (offline f); [discriminate |].
    break_flow; cbn [fst snd app]; intros H; inversion H; subst; clear H;
      string_facts; repeat split; eauto.
  - intros subject serial'. unfold_flow. destruct (offline f); [discriminate |].
    break_flow; cbn [fst snd app]; intros H; inversion H; subst; clear H;
      repeat split; reflexivity.
Qed.

Lemma getClient_token_errors_witness :
  trace_of (getClient Demo.world Demo.online Demo.explicit_url "123" "garbage") = [].
Proof.
  apply (proj1 (getClient_token_errors Demo.world Demo.online Demo.explicit_url
                  "123" "garbage")
           "compact JWS format must have three parts" "error parsing flag '--token'").
  reflexivity.
Defined.

Lemma GenerateToken_Ok (w : World) (f : revokeFlow) (ctx : CliContext)
    (subject tok subject' : string) :
  outcome_of (GenerateToken w f ctx subject) = Ok (tok, subject') ->
  (offline f = true ->
   subject' = subject /\ OfflineGenerateToken w (offlineCA f) ctx subject = inl tok)
  /\ (offline f = false ->
      exists caURL,
        ParseCaURLIfExists w ctx = inl caURL /\ caURL <> ""
        /\ NewTokenFlow w ctx subject' caURL
             (if String.eqb (root_flag ctx) "" then GetRootCAPath w else root_flag ctx)
           = inl tok
        /\ (root_flag ctx = "" -> Stat w (GetRootCAPath w) = true)
        /\ (subject <> "" -> subject' = subject)
        /\ (subject = "" ->
            exists msg, Prompt w msg = inl subject'
                        /\ In (EvPrompt msg) (trace_of (GenerateToken w f ctx subject)))).
Proof.
  unfold_steps. destruct (offline f).
  - break_flow; cbn [fst]; intros H; inversion H; subst;
      (split; [auto | discriminate]).
  - intros H. split; [discriminate |]. intros _. revert H.
    destruct (ParseCaURLIfExists w ctx) as [caURL | msg]; [| discriminate].
    cbv beta iota.
    destruct (String.eqb caURL "") eqn:Hurl; [discriminate |].
    destruct (String.eqb (root_flag ctx) "") eqn:Hroot;
      [destruct (Stat w (GetRootCAPath w)) eqn:Hstat; [| discriminate] |];
      (destruct (String.eqb subject "") eqn:Hsub;
       [destruct (Prompt w _) as [answer | msg] eqn:Hprompt; [| discriminate] |]);
      cbv beta iota;
      match goal with
      | |- context [NewTokenFlow w ctx ?s caURL ?r] =>
          destruct (NewTokenFlow w ctx s caURL r) as [t | msg] eqn:Hflow; [| discriminate]
      end;
      cbn [fst snd app]; intros H; inversion H; subst; clear H; string_facts;
      exists caURL; repeat split; try assumption; try congruence;
      try (intros _; eexists; split; [eassumption | cbn; auto 10]).
Qed.

(** X7.  A token [GenerateToken] returns is made for the subject it returns.
    Offline the subject is the one passed in and the offline CA signs for
    it.  Online the CA URL is not empty, the root is [--root] or else the
    default path, the subject is the one passed in when that is not empty
    and the answer to the prompt otherwise, and the token flow is run for
    exactly that subject, URL and root. *)
Theorem GenerateToken_result (w : World) (f : revokeFlow) (ctx : CliContext)
    (subject tok subject' : string) :
  outcome_of (GenerateToken w f ctx subject) = Ok (tok, subject') ->
  (offline f = true ->
   subject' = subject /\ OfflineGenerateToken w (offlineCA f) ctx subject = inl tok)
  /\ (offline f = false ->
      exists caURL,
        ParseCaURLIfExists w ctx = inl caURL /\ caURL <> ""
        /\ NewTokenFlow w ctx subject' caURL
             (if String.eqb (root_flag ctx) "" then GetRootCAPath w else root_flag ctx)
           = inl tok
        /\ (root_flag ctx = "" -> Stat w (GetRootCAPath w) = true)
        /\ (subject <> "" -> subject' = subject)
        /\ (subject = "" ->
            exists msg, Prompt w msg = inl subject'
                        /\ In (EvPrompt msg) (trace_of (GenerateToken w f ctx subject)))).
Proof. apply GenerateToken_Ok. Qed.

Lemma GenerateToken_result_witness :
  exists caURL,
    ParseCaURLIfExists Demo.world Demo.explicit_url = inl caURL /\ caURL <> ""
    /\ NewTokenFlow Demo.world Demo.explicit_url "123" caURL
         (if String.eqb (root_flag Demo.explicit_url) ""
          then GetRootCAPath Demo.world else root_flag Demo.explicit_url)
       = inl "tok-plain".
Proof.
  destruct (proj2 (GenerateToken_result Demo.world Demo.online Demo.explicit_url
                     "" "tok-plain" "123" eq_refl) eq_refl)
    as (caURL & H1 & H2 & H3 & _).
  exists caURL. repeat split; assumption.
Defined.

(** X8.  [GenerateToken] asks for the serial number only online, only when
    the subject it was given is empty, and only after the CA URL was found
    not empty and the root file settled; a failing prompt ends it with the
    prompt's error and no token flow is run. *)
Theorem GenerateToken_prompt (w : World) (f : revokeFlow) (ctx : CliContext)
    (subject msg : string) :
  In (EvPrompt msg) (trace_of (GenerateToken w f ctx subject)) ->
  offline f = false /\ subject = ""
  /\ (exists caURL, ParseCaURLIfExists w ctx = inl caURL /\ caURL <> "")
  /\ (root_flag ctx = "" -> Stat w (GetRootCAPath w) = true)
  /\ (forall cause, Prompt w msg = inr cause ->
      outcome_of (GenerateToken w f ctx subject) = Err (External cause)
      /\ forall s url root,
           ~ In (EvNewTokenFlow s url root) (trace_of (GenerateToken w f ctx subject))).
Proof.
  unfold_steps. destruct (offline f).
  - break_flow; cbn [fst snd app In]; intros H; split_or_hyps; discriminate.
  - destruct (ParseCaURLIfExists w ctx) as [caURL | e]; [| intros []].
    cbv beta iota.
    destruct (String.eqb caURL "") eqn:Hurl; [intros [] |].
    destruct (String.eqb (root_flag ctx) "") eqn:Hroot;
      [destruct (Stat w (GetRootCAPath w)) eqn:Hstat;
       [| cbn [fst snd app In]; intros H; split_or_hyps; discriminate] |];
      (destruct (String.eqb subject "") eqn:Hsub;
       [| cbv beta iota; break_flow; cbn [fst snd app In]; intros H; split_or_hyps;
          discriminate]);
      cbv beta iota; break_flow; cbn [fst snd app In]; intros H; split_or_hyps;
      try discriminate;
      match goal with
      | H : EvPrompt _ = EvPrompt _ |- _ => inversion H; subst; clear H
      end;
      string_facts;
      (split; [reflexivity |]); (split; [assumption |]);
      (split; [exists caURL; split; [reflexivity | assumption] |]);
      (split; [congruence |]);
      intros cause Hc; try congruence;
      (split; [congruence |]); intros ? ? ? Hin; cbn in Hin; split_or_hyps;
      discriminate.
Qed.

Lemma GenerateToken_prompt_witness :
  offline Demo.online = false
  /\ exists caURL, ParseCaURLIfExists Demo.world Demo.explicit_url = inl caURL /\ caURL <> "".
Proof.
  destruct (GenerateToken_prompt Demo.world Demo.online Demo.explicit_url ""
              "What is the Serial Number of the certificate you would like to revoke? (`step certificate inspect foo.cert`)")
    as (H1 & _ & H3 & _).
  - cbn. repeat (first [left; reflexivity | right]).
  - split; assumption.
Defined.

(** X9.  A transport the mTLS block returns goes through the proxy of the
    environment, prefers the server's cipher suites, presents exactly one
    certificate, the pair of the [--cert] file and the re-serialized
    [--key], with a chain that is not empty, and trusts the pool read from
    [--root] or else from the default root file found on disk. *)
Theorem mTLSTransport_success (w : World) (ctx : CliContext) (t : Transport) :
  outcome_of (mTLSTransport w ctx) = Ok t ->
  Proxy t = ProxyFromEnvironment
  /\ PreferServerCipherSuites t = true
  /\ (exists pem key block cert,
        ReadFile w (cert_flag ctx) = inl pem
        /\ pemutil_Read w (key_flag ctx) = inl key
        /\ pemutil_Serialize w key = inl block
        /\ X509KeyPair w pem (EncodeToMemory w block) = inl cert
        /\ Chain cert <> []
        /\ Certificates t = [cert])
  /\ ReadCertPool w (if String.eqb (root_flag ctx) "" then GetRootCAPath w
                     else root_flag ctx)
     = inl (RootCAs t)
  /\ (root_flag ctx = "" -> Stat w (GetRootCAPath w) = true).
Proof.
  unfold_steps.
  destruct (ReadFile w (cert_flag ctx)) as [pem | e] eqn:Hpem; [| discriminate].
  destruct (pemutil_Read w (key_flag ctx)) as [key | e] eqn:Hkey; [| discriminate].
  cbv beta iota.
  destruct (pemutil_Serialize w key) as [block | e] eqn:Hblock; [| discriminate].
  cbv beta iota.
  destruct (X509KeyPair w pem (EncodeToMemory w block)) as [cert | e] eqn:Hpair;
    [| discriminate].
  cbv beta iota.
  destruct (Z.of_nat (List.length (Chain cert)) =? 0) eqn:Hlen; [discriminate |].
  assert (Hchain : Chain cert <> []).
  { intros Hnil. rewrite Hnil in Hlen. discriminate. }
  destruct (String.eqb (root_flag ctx) "") eqn:Hroot;
    [destruct (Stat w (GetRootCAPath w)) eqn:Hstat; [| discriminate] |];
    cbv beta iota;
    match goal with
    | |- context [ReadCertPool w ?r] =>
        destruct (ReadCertPool w r) as [pool | e] eqn:Hpool; [| discriminate]
    end;
    cbn [fst]; intros H; inversion H; subst; clear H; cbn; string_facts;
    repeat split; try congruence; exists pem, key, block, cert; repeat split; assumption.
Qed.

Lemma mTLSTransport_success_witness :
  Certificates Demo.transport = [ {| Chain := ["DER"] |} ]
  /\ PreferServerCipherSuites Demo.transport = true.
Proof.
  destruct (mTLSTransport_success Demo.world Demo.mtls Demo.transport eq_refl)
    as (_ & Hprefer & (pem & key & block & cert & _ & _ & _ & Hpair & _ & Hcerts) & _).
  split; [| exact Hprefer].
  rewrite Hcerts. cbn in Hpair. now inversion Hpair.
Defined.

(** X10.  The mTLS block stops at its first failing step.  When the
    certificate file cannot be read the key is not read; an empty
    certificate chain is reported as such before the root is looked at; and
    the required-flag error for [root] means that [--root] was not given,
    the default root file is missing, and no pool was read. *)
Theorem mTLSTransport_fail_fast (w : World) (ctx : CliContext) :
  (forall cause,
     outcome_of (mTLSTransport w ctx) = Err (Wrap cause "error reading certificate") ->
     ReadFile w (cert_flag ctx) = inr cause
     /\ trace_of (mTLSTransport w ctx) = [EvReadFile (cert_flag ctx)])
  /\ (outcome_of (mTLSTransport w ctx) = Err EmptyCertificateChain ->
      trace_of (mTLSTransport w ctx)
        = [EvReadFile (cert_flag ctx); EvReadKey (key_flag ctx)])
  /\ (forall flag other,
        outcome_of (mTLSTransport w ctx) = Err (RequiredUnlessFlag flag other) ->
        flag = "root" /\ other = "token" /\ root_flag ctx = ""
        /\ Stat w (GetRootCAPath w) = false
        /\ forall path, ~ In (EvReadCertPool path) (trace_of (mTLSTransport w ctx))).
Proof.
  split; [| split].
  - intros cause. unfold_steps.
    break_flow; cbn [fst snd app]; intros H; inversion H; subst; clear H;
      split; reflexivity.
  - unfold_steps.
    break_flow; cbn [fst snd app]; intros H; inversion H; reflexivity.
  - intros flag other. unfold_steps.
    break_flow; cbn [fst snd app In]; intros H; inversion H; subst; clear H;
      string_facts; repeat split; try assumption;
      intros path Hin; split_or_hyps; discriminate.
Qed.

Lemma mTLSTransport_fail_fast_witness :
  trace_of (mTLSTransport Demo.world Demo.bare) = [EvReadFile ""].
Proof.
  apply (proj1 (mTLSTransport_fail_fast Demo.world Demo.bare) "no such file").
  reflexivity.
Defined.

(** ** The flow value *)

Section FlowValue.

Variable w : World.

Lemma newRevokeFlow_Ok (ctx : CliContext) (certFile keyFile : string) (flow : revokeFlow) :
  outcome_of (newRevokeFlow w ctx certFile keyFile) = Ok flow ->
  offline flow = offline_flag ctx
  /\ (offline_flag ctx = false ->
      offlineCA flow = None /\ trace_of (newRevokeFlow w ctx certFile keyFile) = [])
  /\ (offline_flag ctx = true ->
      ca_config_flag ctx <> ""
      /\ exists ca,
           NewOfflineCA w ctx (ca_config_flag ctx) = inl ca
           /\ offlineCA flow = Some ca
           /\ (certFile <> "" \/ keyFile <> "" ->
               VerifyClientCert w ca certFile keyFile = None)).
Proof.
  unfold_steps. destruct (offline_flag ctx).
  - destruct (String.eqb (ca_config_flag ctx) "") eqn:Hcfg; [discriminate |].
    destruct (NewOfflineCA w ctx (ca_config_flag ctx)) as [ca | e] eqn:Hca;
      [| discriminate].
    cbv beta iota. unfold nonempty.
    destruct (String.eqb certFile "") eqn:Hc; destruct (String.eqb keyFile "") eqn:Hk;
      cbn [negb orb];
      try (destruct (VerifyClientCert w ca certFile keyFile) eqn:Hv; [discriminate |]);
      cbn [fst]; intros H; inversion H; subst; clear H; cbn [offline offlineCA];
      string_facts;
      (split; [reflexivity |]); (split; [discriminate |]); intros _;
      (split; [assumption |]); exists ca; repeat split; try assumption;
      intros [Hn | Hn]; congruence.
  - cbn [fst snd]. intros H. inversion H; subst. cbn.
    split; [reflexivity |]. split; [auto | discriminate].
Qed.

End FlowValue.

(** X11.  A flow value [newRevokeFlow] returns is offline exactly when
    [--offline] is set.  Online it holds no offline CA and nothing was
    touched.  Offline it holds the CA loaded from a non-empty [--ca-config],
    and when a certificate or key was given that CA has accepted the pair.
    Offline without [--ca-config] fails with the invalid-flag-value error
    before anything is loaded. *)
Theorem newRevokeFlow_result (w : World) (ctx : CliContext) (certFile keyFile : string) :
  (forall flow,
     outcome_of (newRevokeFlow w ctx certFile keyFile) = Ok flow ->
     offline flow = offline_flag ctx
     /\ (offline_flag ctx = false ->
         offlineCA flow = None /\ trace_of (newRevokeFlow w ctx certFile keyFile) = [])
     /\ (offline_flag ctx = true ->
         ca_config_flag ctx <> ""
         /\ exists ca,
              NewOfflineCA w ctx (ca_config_flag ctx) = inl ca
              /\ offlineCA flow = Some ca
              /\ (certFile <> "" \/ keyFile <> "" ->
                  VerifyClientCert w ca certFile keyFile = None)))
  /\ (offline_flag ctx = true -> ca_config_flag ctx = "" ->
      newRevokeFlow w ctx certFile keyFile
        = (Err (InvalidFlagValue "ca-config" "" ""), [])).
Proof.
  split.
  - intros flow. apply newRevokeFlow_Ok.
  - intros Hoff Hcfg. unfold newRevokeFlow. rewrite Hoff, Hcfg. reflexivity.
Qed.

Lemma newRevokeFlow_result_witness :
  newRevokeFlow Demo.world (Demo.with_offline "" Demo.bare) "leaf.crt" "leaf.key"
    = (Err (InvalidFlagValue "ca-config" "" ""), [])
  /\ offline {| offlineCA := Some (mkOfflineCA 0); offline := true |}
     = offline_flag Demo.offline_with_token.
Proof.
  split.
  - apply (proj2 (newRevokeFlow_result Demo.world (Demo.with_offline "" Demo.bare)
                    "leaf.crt" "leaf.key")); reflexivity.
  - apply (proj1 (newRevokeFlow_result Demo.world Demo.offline_with_token
                    "leaf.crt" "leaf.key")
             {| offlineCA := Some (mkOfflineCA 0); offline := true |}).
    reflexivity.
Defined.

(** ** The run of the action, step by step *)

Section ActionRun.

Variable w : World.

Lemma reason_code_error_kind (rc : string) (code : Z) (e : error) :
  reasonCodeToNum w rc = (code, Some e) ->
  is_reason_code_error e = true /\ is_argument_error e = false.
Proof.
  unfold reasonCodeToNum, ReasonCodeToNum.
  break_flow; intros H; inversion H; subst; split; reflexivity.
Qed.

Lemma getClient_outcome (f : revokeFlow) (ctx : CliContext) (serial token : string) :
  (forall msg, outcome_of (getClient w f ctx serial token) <> Panic msg)
  /\ (forall e, outcome_of (getClient w f ctx serial token) = Err e ->
      is_reason_code_error e = false /\ is_argument_error e = false).
Proof.
  split; [intros msg | intros e]; unfold_flow;
    break_flow; cbn [fst]; try discriminate;
    intros H; inversion H; subst; split; reflexivity.
Qed.

Lemma mTLSTransport_outcome (ctx : CliContext) :
  (forall msg, outcome_of (mTLSTransport w ctx) <> Panic msg)
  /\ (forall e, outcome_of (mTLSTransport w ctx) = Err e ->
      is_reason_code_error e = false /\ is_argument_error e = false).
Proof.
  split; [intros msg | intros e]; unfold_steps;
    break_flow; cbn [fst]; try discriminate;
    intros H; inversion H; subst; split; reflexivity.
Qed.

Lemma GenerateToken_outcome (f : revokeFlow) (ctx : CliContext) (subject : string) :
  (forall msg, outcome_of (GenerateToken w f ctx subject) <> Panic msg)
  /\ (forall e, outcome_of (GenerateToken w f ctx subject) = Err e ->
      is_reason_code_error e = false /\ is_argument_error e = false).
Proof.
  split; [intros msg | intros e]; unfold_steps;
    break_flow; cbn [fst]; try discriminate;
    intros H; inversion H; subst; split; reflexivity.
Qed.

Lemma newRevokeFlow_outcome (ctx : CliContext) (certFile keyFile : string) (e : error) :
  outcome_of (newRevokeFlow w ctx certFile keyFile) = Err e ->
  is_reason_code_error e = false /\ is_argument_error e = false.
Proof.
  unfold_steps. break_flow; cbn [fst]; try discriminate;
    intros H; inversion H; subst; split; reflexivity.
Qed.

(** [Revoke] either stops before the client is called, with an error, or
    calls the client once, as its last effect. *)
Lemma Revoke_run (f : revokeFlow) (ctx : CliContext) (serial token : string) :
  exists pre,
    (forall ev, In ev pre ->
       In ev (trace_of (getClient w f ctx serial token))
       \/ (token = "" /\ In ev (trace_of (mTLSTransport w ctx))))
    /\ ((trace_of (Revoke w f ctx serial token) = pre
         /\ exists e, outcome_of (Revoke w f ctx serial token) = Err e
                      /\ is_argument_error e = false
                      /\ (snd (reasonCodeToNum w (reasonCode_flag ctx)) = None ->
                          is_reason_code_error e = false))
        \/ exists client req tr,
             trace_of (Revoke w f ctx serial token) = pre ++ [EvRevoke client req tr]
             /\ outcome_of (Revoke w f ctx serial token)
                  = match ClientRevoke w client req tr with
                    | None => Ok tt
                    | Some msg => Err (External msg)
                    end).
Proof.
  destruct (getClient_outcome f ctx serial token) as [Hgp Hge].
  destruct (mTLSTransport_outcome ctx) as [Hmp Hme].
  unfold Revoke, outcome_of, trace_of in *.
  destruct (getClient w f ctx serial token) as [[c | e | p] tg];
    cbn [bind fst snd] in *; [| | now elim (Hgp p)].
  2:{ exists tg. split; [auto |]. left. split; [reflexivity |].
      exists e. destruct (Hge e eq_refl). auto. }
  destruct (reasonCodeToNum w (reasonCode_flag ctx)) as [code [err |]] eqn:Hrc;
    cbn [fail fst snd].
  { exists tg. split; [auto |]. left. rewrite app_nil_r. split; [reflexivity |].
    exists err. split; [reflexivity |].
    split; [apply (reason_code_error_kind _ _ _ Hrc) | intros H; discriminate H]. }
  destruct (String.eqb token "") eqn:Htok.
  - apply String.eqb_eq in Htok.
    destruct (mTLSTransport w ctx) as [[t | e | p] tm];
      cbn [bind ret fst snd] in *; [| | now elim (Hmp p)].
    + exists (tg ++ tm). split.
      { intros ev Hin. apply in_app_or in Hin. destruct Hin; auto. }
      right.
      exists c, {| Serial := serial; Reason := reason_flag ctx; ReasonCode := code;
                   OTT := token; Passive := true |}, (Some t).
      destruct (ClientRevoke w c _ (Some t)); cbn [emit fst snd];
        rewrite ?app_nil_r, <- ?app_assoc; split; reflexivity.
    + exists (tg ++ tm). split.
      { intros ev Hin. apply in_app_or in Hin. destruct Hin; auto. }
      left. rewrite ?app_nil_r. split; [reflexivity |].
      exists e. destruct (Hme e eq_refl). auto.
  - cbn [bind ret fst snd]. exists tg. split; [auto |].
    right.
    exists c, {| Serial := serial; Reason := reason_flag ctx; ReasonCode := code;
                 OTT := token; Passive := true |}, None.
    destruct (ClientRevoke w c _ None); cbn [emit fst snd app]; split; reflexivity.
Qed.

Lemma revokeAndReport_run (flow : revokeFlow) (ctx : CliContext) (serial token : string) :
  trace_of (revokeAndReport w flow ctx serial token)
    = trace_of (Revoke w flow ctx serial token)
      ++ match outcome_of (Revoke w flow ctx serial token) with
         | Ok _ => [EvPrintf ("Certificate with Serial Number " ++ serial
                              ++ " has been revoked." ++ newline)%string]
         | _ => []
         end
  /\ outcome_of (revokeAndReport w flow ctx serial token)
     = match outcome_of (Revoke w flow ctx serial token) with
       | Ok _ => Ok tt
       | Err e => Err e
       | Panic msg => Panic msg
       end.
Proof.
  unfold revokeAndReport. rewrite trace_bind, outcome_bind.
  destruct (outcome_of (Revoke w flow ctx serial token)); split; reflexivity.
Qed.


Lemma no_cert_no_key (ctx : CliContext) :
  nonempty (cert_flag ctx) || nonempty (key_flag ctx) = false ->
  cert_flag ctx = "" /\ key_flag ctx = "".
Proof.
  unfold nonempty. intros H. apply orb_false_iff in H. destruct H as [Hc Hk].
  apply negb_false_iff in Hc, Hk. apply String.eqb_eq in Hc, Hk. now split.
Qed.

Lemma NumberOfArguments_one (ctx : CliContext) :
  match NumberOfArguments ctx 1 with
  | None => NArg ctx = 1
  | Some e => is_argument_error e = true /\ is_reason_code_error e = false
              /\ NArg ctx <> 1
  end.
Proof.
  unfold NumberOfArguments.
  destruct (Z.ltb_spec (NArg ctx) 1); [repeat split; lia |].
  rewrite Z.gtb_ltb. destruct (Z.ltb_spec 1 (NArg ctx)); [repeat split; lia | lia].
Qed.

(** The action either stops before [Revoke], or goes on as [Revoke] and the
    report do, on one of the three inputs of [dispatch_inputs]. *)
Lemma action_run (ctx : CliContext) :
  exists pre,
    (forall ev, In ev pre -> early_event w ctx ev)
    /\ ((trace_of (revokeCertificateAction w ctx) = pre
         /\ ((exists e,
                outcome_of (revokeCertificateAction w ctx) = Err e
                /\ (is_reason_code_error e = true ->
                    pre = [] /\ snd (reasonCodeToNum w (reasonCode_flag ctx)) = Some e)
                /\ (is_argument_error e = true ->
                    pre = trace_of (newRevokeFlow w ctx (cert_flag ctx) (key_flag ctx))))
             \/ (outcome_of (revokeCertificateAction w ctx)
                   = Panic "index out of range [0] with length 0"
                 /\ cert_flag ctx <> "" /\ key_flag ctx <> ""
                 /\ ReadCertificateBundle w (cert_flag ctx) = inl [])))
        \/ exists flow serial token,
             dispatch_inputs w ctx flow serial token
             /\ trace_of (revokeCertificateAction w ctx)
                  = pre ++ trace_of (revokeAndReport w flow ctx serial token)
             /\ outcome_of (revokeCertificateAction w ctx)
                  = outcome_of (revokeAndReport w flow ctx serial token)).
Proof.
  pose proof (newRevokeFlow_no_panic w ctx (cert_flag ctx) (key_flag ctx)) as Hfp.
  pose proof (newRevokeFlow_outcome ctx (cert_flag ctx) (key_flag ctx)) as Hfe.
  unfold revokeCertificateAction.
  destruct (reasonCodeToNum w (reasonCode_flag ctx)) as [code [err |]] eqn:Hrc.
  { exists []. split; [intros ev [] |]. left. split; [reflexivity |]. left.
    exists err. destruct (reason_code_error_kind _ _ _ Hrc) as [Hk1 Hk2].
    repeat split; congruence. }
  destruct (offline_flag ctx && negb (String.eqb (token_flag ctx) "")) eqn:Hgate.
  { exists []. split; [intros ev [] |]. left. split; [reflexivity |]. left.
    eexists. split; [reflexivity |]. split; discriminate. }
  assert (Hgate' : offline_flag ctx = false \/ token_flag ctx = "").
  { apply andb_false_iff in Hgate. destruct Hgate as [H | H]; [now left | right].
    apply negb_false_iff in H. now apply String.eqb_eq. }
  clear Hgate.
  unfold early_event, dispatch_inputs, gates_passed, outcome_of, trace_of in *.
  rewrite Hrc.
  destruct (newRevokeFlow w ctx (cert_flag ctx) (key_flag ctx)) as [[flow | e | p] t0];
    cbn [bind fst snd] in *; [| | now elim (Hfp p)].
  2:{ exists t0. split; [auto |]. left. split; [reflexivity |]. left.
      exists e. destruct (Hfe e eq_refl) as [H1 H2]. repeat split; congruence. }
  destruct (nonempty (cert_flag ctx) || nonempty (key_flag ctx)) eqn:Hck.
  - destruct (NArg ctx >? 0) eqn:Hn.
    { exists t0. split; [auto |]. left. cbn [fail fst snd]. rewrite app_nil_r.
      split; [reflexivity |]. left. eexists. split; [reflexivity |].
      split; [discriminate | reflexivity]. }
    assert (Hn0 : NArg ctx = 0).
    { rewrite Z.gtb_ltb in Hn. apply Z.ltb_ge in Hn. unfold NArg in *. lia. }
    destruct (String.eqb (cert_flag ctx) "") eqn:Hc.
    { exists t0. split; [auto |]. left. cbn [fail fst snd]. rewrite app_nil_r.
      split; [reflexivity |]. left. eexists. split; [reflexivity |].
      split; [discriminate | reflexivity]. }
    destruct (String.eqb (key_flag ctx) "") eqn:Hk.
    { exists t0. split; [auto |]. left. cbn [fail fst snd]. rewrite app_nil_r.
      split; [reflexivity |]. left. eexists. split; [reflexivity |].
      split; [discriminate | reflexivity]. }
    apply String.eqb_neq in Hc, Hk.
    exists (t0 ++ [EvReadCertificateBundle (cert_flag ctx)]). split.
    { intros ev Hin. apply in_app_or in Hin. destruct Hin as [Hin | [<- | []]]; [auto |].
      right. left. repeat split; assumption. }
    unfold call.
    destruct (ReadCertificateBundle w (cert_flag ctx)) as [[| c0 rest] | msg] eqn:Hb;
      cbn [bind panic fst snd].
    + left. rewrite app_nil_r. split; [reflexivity |]. right. auto.
    + right. exists flow, (Strconv.Itoa (SerialNumber c0)), (token_flag ctx).
      destruct (revokeAndReport w flow ctx (Strconv.Itoa (SerialNumber c0))
                  (token_flag ctx)) as [r T].
      cbn [fst snd]. rewrite <- app_assoc. repeat split; auto.
      left. repeat split; auto. now exists c0, rest.
    + left. split; [reflexivity |]. left. eexists. split; [reflexivity |].
      split; discriminate.
  - apply no_cert_no_key in Hck. destruct Hck as [Hc Hk].
    pose proof (NumberOfArguments_one ctx) as Hargs.
    destruct (NumberOfArguments ctx 1) as [err |].
    { exists t0. split; [auto |]. left. cbn [fail fst snd]. rewrite app_nil_r.
      split; [reflexivity |]. left. exists err. split; [reflexivity |].
      destruct Hargs as (H1 & H2 & _). split; [congruence | reflexivity]. }
    destruct (String.eqb (token_flag ctx) "") eqn:Htok.
    + apply String.eqb_eq in Htok.
      destruct (GenerateToken_outcome flow ctx (Args_Get0 ctx)) as [Hgp Hge].
      unfold outcome_of in *.
      destruct (GenerateToken w flow ctx (Args_Get0 ctx)) as [[[tok subj] | e | p] t1] eqn:Hgen;
        cbn [bind fst snd] in *; [| | now elim (Hgp p)].
      * exists (t0 ++ t1). split.
        { intros ev Hin. apply in_app_or in Hin. destruct Hin as [Hin | Hin]; [auto |].
          right. right. repeat split; auto. exists flow. split; [reflexivity |].
          rewrite Hgen. exact Hin. }
        right. exists flow, subj, tok.
        destruct (revokeAndReport w flow ctx subj tok) as [r T].
        cbn [fst snd]. rewrite <- app_assoc. repeat split; auto.
        right. right. rewrite Hgen. repeat split; auto.
      * exists (t0 ++ t1). split.
        { intros ev Hin. apply in_app_or in Hin. destruct Hin as [Hin | Hin]; [auto |].
          right. right. repeat split; auto. exists flow. split; [reflexivity |].
          rewrite Hgen. exact Hin. }
        left. split; [reflexivity |]. left. exists e.
        destruct (Hge e eq_refl) as [H1 H2]. repeat split; congruence.
    + apply String.eqb_neq in Htok. exists t0. split; [auto |].
      right. exists flow, (Args_Get0 ctx), (token_flag ctx).
      destruct (revokeAndReport w flow ctx (Args_Get0 ctx) (token_flag ctx)) as [r T].
      cbn [fst snd]. repeat split; auto.
      right. left. repeat split; auto.
Qed.

End ActionRun.

Section ActionShape.

Variable w : World.

(** The kinds of event that come before the client is called. *)
Lemma prior_event_cases (ctx : CliContext) (ev : event) :
  prior_event w ctx ev ->
  (offline_flag ctx = true
   /\ (ev = EvNewOfflineCA (ca_config_flag ctx)
       \/ (ev = EvVerifyClientCert (cert_flag ctx) (key_flag ctx)
           /\ (cert_flag ctx <> "" \/ key_flag ctx <> ""))))
  \/ (ev = EvReadCertificateBundle (cert_flag ctx)
      /\ cert_flag ctx <> "" /\ key_flag ctx <> "" /\ NArg ctx = 0)
  \/ (cert_flag ctx = "" /\ key_flag ctx = "" /\ token_flag ctx = "" /\ NArg ctx = 1
      /\ ((offline_flag ctx = true /\ ev = EvOfflineGenerateToken (Args_Get0 ctx))
          \/ (offline_flag ctx = false
              /\ ((Args_Get0 ctx = "" /\ exists msg, ev = EvPrompt msg)
                  \/ exists s url root, ev = EvNewTokenFlow s url root))))
  \/ (ev = EvStat (GetRootCAPath w) /\ root_flag ctx = "")
  \/ (offline_flag ctx = false
      /\ ((exists url, ev = EvPrintSelected "CA" url)
          \/ exists url options, ev = EvNewClient url options))
  \/ ((cert_flag ctx <> "" \/ key_flag ctx <> "" \/ offline_flag ctx = true
       \/ Args_Get0 ctx = "" \/ token_flag ctx = "")
      /\ (ev = EvReadFile (cert_flag ctx) \/ ev = EvReadKey (key_flag ctx)
          \/ ev = EvReadCertPool (if String.eqb (root_flag ctx) "" then GetRootCAPath w
                                  else root_flag ctx))).
Proof.
  intros [Hearly | (flow & serial & token & (Hg & Hin) & Hev)].
  - destruct Hearly as [Hin | [(-> & Hc & Hk & Hn) | (Hc & Hk & Ht & Hn & flow & Hflow & Hin)]].
    + apply newRevokeFlow_events in Hin. destruct Hin as [Hoff Hin]. left. auto.
    + right. left. auto.
    + destruct (newRevokeFlow_Ok w ctx _ _ flow Hflow) as (Hoff & _).
      apply GenerateToken_events in Hin. rewrite Hoff in Hin.
      destruct Hin as [(Ho & ->) | (Ho & [(-> & Hr) | [(Hs & msg & ->) | (s & u & r & ->)]])].
      * right. right. left. repeat split; auto.
      * right. right. right. left. auto.
      * right. right. left. repeat split; auto. right. split; [auto |]. left. eauto.
      * right. right. left. repeat split; auto. right. split; [auto |]. right. eauto.
  - destruct Hg as (_ & _ & Hflow).
    destruct (newRevokeFlow_Ok w ctx _ _ flow Hflow) as (Hoff & _).
    destruct Hev as [Hev | (Htok & Hev)].
    + apply getClient_events in Hev. rewrite Hoff in Hev.
      destruct Hev as (Ho & [(-> & Hr) | [(u & ->) | (u & o & ->)]]).
      * right. right. right. left. auto.
      * right. right. right. right. left. split; [auto |]. left. eauto.
      * right. right. right. right. left. split; [auto |]. right. eauto.
    + apply mTLSTransport_events in Hev.
      assert (Hwhy : cert_flag ctx <> "" \/ key_flag ctx <> "" \/ offline_flag ctx = true
                     \/ Args_Get0 ctx = "" \/ token_flag ctx = "").
      { subst token.
        destruct Hin as [(Hc & _) | [(_ & _ & _ & Hne & Heq & _) | (_ & _ & _ & Ht & _)]];
          auto. }
      destruct Hev as [-> | [-> | [(-> & Hr) | ->]]].
      * do 5 right. split; [exact Hwhy | auto].
      * do 5 right. split; [exact Hwhy | auto].
      * right. right. right. left. auto.
      * do 5 right. split; [exact Hwhy |]. right. right. reflexivity.
Qed.

Lemma prior_event_not_last (ctx : CliContext) (ev : event) :
  prior_event w ctx ev ->
  (forall c r t, ev <> EvRevoke c r t) /\ (forall msg, ev <> EvPrintf msg).
Proof.
  intros H. apply prior_event_cases in H.
  split; intros; intros ->;
    repeat match goal with
           | H : _ \/ _ |- _ => destruct H
           | H : _ /\ _ |- _ => destruct H
           | H : exists _, _ |- _ => destruct H
           end; discriminate.
Qed.

(** The whole run: either the client is never called, nothing is reported
    and the action does not succeed; or the client is called once, on one
    of the three inputs, as the last effect but for the report, which is
    handed to [ui.Printf] exactly when the client accepted. *)
Lemma action_shape (ctx : CliContext) :
  ((forall ev, In ev (trace_of (revokeCertificateAction w ctx)) -> prior_event w ctx ev)
   /\ forall u, outcome_of (revokeCertificateAction w ctx) <> Ok u)
  \/ exists pre flow serial token client req tr,
       dispatch_inputs w ctx flow serial token
       /\ (forall ev, In ev pre -> prior_event w ctx ev)
       /\ In (EvRevoke client req tr) (trace_of (Revoke w flow ctx serial token))
       /\ ((ClientRevoke w client req tr = None
            /\ revokeCertificateAction w ctx
                 = (Ok tt, pre ++ [EvRevoke client req tr; EvPrintf (report serial)]))
           \/ exists msg,
                ClientRevoke w client req tr = Some msg
                /\ revokeCertificateAction w ctx
                     = (Err (External msg), pre ++ [EvRevoke client req tr])).
Proof.
  destruct (action_run w ctx) as (pre & Hpre & [(Htr & Hout) | Hlate]).
  - left. rewrite Htr. split.
    + intros ev Hin. left. auto.
    + intros u Hu. destruct Hout as [(e & He & _) | (Hp & _)]; congruence.
  - destruct Hlate as (flow & serial & token & Hin & Htr & Hout).
    destruct (revokeAndReport_run w flow ctx serial token) as [HtR HoR].
    destruct (Revoke_run w flow ctx serial token) as (pre' & Hpre' & [(HtV & e & He & _) | Hcall]).
    + left. rewrite Htr, HtR, He, app_nil_r, HtV. split.
      * intros ev Hev. apply in_app_or in Hev. destruct Hev as [Hev | Hev].
        -- left. auto.
        -- right. exists flow, serial, token. split; [exact Hin |]. now apply Hpre'.
      * intros u. rewrite Hout, HoR, He. discriminate.
    + destruct Hcall as (client & req & tr & HtV & HoV).
      right. exists (pre ++ pre'), flow, serial, token, client, req, tr.
      split; [exact Hin |]. split.
      { intros ev Hev. apply in_app_or in Hev. destruct Hev as [Hev | Hev].
        - left. auto.
        - right. exists flow, serial, token. split; [exact Hin |]. now apply Hpre'. }
      split; [rewrite HtV; apply in_or_app; right; now left |].
      destruct (revokeCertificateAction w ctx) as [o t] eqn:Hact.
      unfold outcome_of, trace_of in *. cbn [fst snd] in *.
      destruct (ClientRevoke w client req tr) as [msg |].
      * right. exists msg. split; [reflexivity |].
        rewrite Hout, HoR, HoV, Htr, HtR, HoV, HtV, app_nil_r, app_assoc. reflexivity.
      * left. split; [reflexivity |].
        rewrite Hout, HoR, HoV, Htr, HtR, HoV, HtV. unfold report.
        rewrite <- !app_assoc. reflexivity.
Qed.

End ActionShape.

(** ** The action: errors and their place in the run *)

(** X12.  A reason code that is not accepted ends the action with that
    error before anything else happens; and an error about the reason code
    can only come from there: the second check inside [Revoke] never fails
    in a run of the action. *)
Theorem action_reason_code_first (w : World) (ctx : CliContext) (e : error) :
  (snd (reasonCodeToNum w (reasonCode_flag ctx)) = Some e ->
   revokeCertificateAction w ctx = (Err e, []))
  /\ (outcome_of (revokeCertificateAction w ctx) = Err e ->
      is_reason_code_error e = true ->
      trace_of (revokeCertificateAction w ctx) = []
      /\ snd (reasonCodeToNum w (reasonCode_flag ctx)) = Some e).
Proof.
  split.
  - unfold revokeCertificateAction.
    destruct (reasonCodeToNum w (reasonCode_flag ctx)) as [code [err |]];
      cbn [snd]; intros H; inversion H; reflexivity.
  - intros Hout Hkind.
    destruct (action_run w ctx) as (pre & _ & [(Htr & Hearly) | Hlate]).
    + destruct Hearly as [(e' & He' & Hr & _) | (Hp & _)]; [| congruence].
      assert (e' = e) by congruence. subst e'.
      destruct (Hr Hkind) as [-> Hrc]. now rewrite Htr.
    + exfalso. destruct Hlate as (flow & serial & token & ((Hrc & _) & _) & _ & Ho).
      destruct (revokeAndReport_run w flow ctx serial token) as [_ HoR].
      rewrite Ho, HoR in Hout.
      destruct (Revoke_run w flow ctx serial token)
        as (pre' & _ & [(_ & e0 & He0 & _ & Hr0) | (c & r & t & _ & HoV)]).
      * rewrite He0 in Hout. inversion Hout; subst. specialize (Hr0 Hrc). congruence.
      * rewrite HoV in Hout. destruct (ClientRevoke w c r t); [| discriminate].
        inversion Hout; subst. discriminate.
Qed.

Lemma action_reason_code_first_witness :
  revokeCertificateAction Demo.world (Demo.with_reasonCode "11" Demo.mtls)
    = (Err (ReasonCodeOutOfBounds 11 0 10), []).
Proof.
  apply (proj1 (action_reason_code_first Demo.world (Demo.with_reasonCode "11" Demo.mtls)
                  (ReasonCodeOutOfBounds 11 0 10))).
  reflexivity.
Defined.

(** X13.  An error about the positional arguments or about the cert/key
    pair is returned before any step other than [newRevokeFlow] has run:
    online nothing at all has happened by then, offline only the offline CA
    has been loaded (and the pair checked against it). *)
Theorem action_argument_errors (w : World) (ctx : CliContext) (e : error) :
  outcome_of (revokeCertificateAction w ctx) = Err e ->
  is_argument_error e = true ->
  trace_of (revokeCertificateAction w ctx)
    = trace_of (newRevokeFlow w ctx (cert_flag ctx) (key_flag ctx))
  /\ (offline_flag ctx = false -> trace_of (revokeCertificateAction w ctx) = []).
Proof.
  intros Hout Hkind.
  assert (Htrace : trace_of (revokeCertificateAction w ctx)
                   = trace_of (newRevokeFlow w ctx (cert_flag ctx) (key_flag ctx))).
  { destruct (action_run w ctx) as (pre & _ & [(Htr & Hearly) | Hlate]).
    - destruct Hearly as [(e' & He' & _ & Ha) | (Hp & _)]; [| congruence].
      assert (e' = e) by congruence. subst e'. rewrite Htr. now apply Ha.
    - exfalso. destruct Hlate as (flow & serial & token & _ & _ & Ho).
      destruct (revokeAndReport_run w flow ctx serial token) as [_ HoR].
      rewrite Ho, HoR in Hout.
      destruct (Revoke_run w flow ctx serial token)
        as (pre' & _ & [(_ & e0 & He0 & Ha0 & _) | (c & r & t & _ & HoV)]).
      + rewrite He0 in Hout. inversion Hout; subst. congruence.
      + rewrite HoV in Hout. destruct (ClientRevoke w c r t); [| discriminate].
        inversion Hout; subst. discriminate. }
  split; [exact Htrace |].
  intros Hoff. rewrite Htrace. unfold newRevokeFlow. rewrite Hoff. reflexivity.
Qed.

Lemma action_argument_errors_witness :
  trace_of (revokeCertificateAction Demo.world Demo.bare) = [].
Proof.
  apply (proj2 (action_argument_errors Demo.world Demo.bare TooFewArguments
                  eq_refl eq_refl)).
  reflexivity.
Defined.

(** X14.  The action panics only in the cert/key branch, when the bundle
    reader returns no certificate and no error, on taking the first
    certificate; the client has not been called then. *)
Theorem action_panic (w : World) (ctx : CliContext) (msg : string) :
  outcome_of (revokeCertificateAction w ctx) = Panic msg ->
  cert_flag ctx <> "" /\ key_flag ctx <> ""
  /\ ReadCertificateBundle w (cert_flag ctx) = inl []
  /\ forall c r t, ~ In (EvRevoke c r t) (trace_of (revokeCertificateAction w ctx)).
Proof.
  intros Hout.
  destruct (action_run w ctx) as (pre & Hpre & [(Htr & Hearly) | Hlate]).
  - destruct Hearly as [(e' & He' & _) | (_ & Hc & Hk & Hb)]; [congruence |].
    repeat split; try assumption.
    intros c r t Hin. rewrite Htr in Hin.
    assert (Hprior : prior_event w ctx (EvRevoke c r t)) by (left; auto).
    apply prior_event_not_last in Hprior. destruct Hprior as [Hno _].
    now apply (Hno c r t).
  - exfalso. destruct Hlate as (flow & serial & token & _ & _ & Ho).
    destruct (revokeAndReport_run w flow ctx serial token) as [_ HoR].
    rewrite Ho, HoR in Hout.
    destruct (Revoke_run w flow ctx serial token)
      as (pre' & _ & [(_ & e0 & He0 & _) | (c & r & t & _ & HoV)]).
    + rewrite He0 in Hout. discriminate.
    + rewrite HoV in Hout. destruct (ClientRevoke w c r t); discriminate.
Qed.

Lemma action_panic_witness :
  ReadCertificateBundle Demo.empty_bundle (cert_flag Demo.mtls) = inl [].
Proof.
  apply (action_panic Demo.empty_bundle Demo.mtls "index out of range [0] with length 0").
  reflexivity.
Defined.

(** ** The action: the call of the client and what surrounds it *)

Section ActionEvents.

Variable w : World.

Lemma action_event_cases (ctx : CliContext) (ev : event) :
  In ev (trace_of (revokeCertificateAction w ctx)) ->
  prior_event w ctx ev
  \/ (exists c r t, ev = EvRevoke c r t)
  \/ (exists msg, ev = EvPrintf msg).
Proof.
  destruct (action_shape w ctx)
    as [(Hall & _) | (pre & flow & serial & token & c & r & t & _ & Hpre & _ & Hrun)];
    [auto |].
  destruct Hrun as [(_ & ->) | (msg & _ & ->)]; cbn [trace_of snd]; intros Hin;
    apply in_app_or in Hin; destruct Hin as [Hin | Hin]; auto;
    cbn in Hin; split_or_hyps; subst; eauto 6.
Qed.

Lemma single_empty_argument (ctx : CliContext) :
  NArg ctx = 1 -> Args_Get0 ctx = "" -> Args ctx = [""].
Proof.
  unfold NArg, Args_Get0. destruct (Args ctx) as [| a [| b rest]]; cbn.
  - lia.
  - now intros _ ->.
  - lia.
Qed.

Lemma getClient_Ok_cases (f : revokeFlow) (ctx : CliContext) (serial token : string)
    (c : CaClient) :
  outcome_of (getClient w f ctx serial token) = Ok c ->
  (offline f = true /\ c = OfflineClient (offlineCA f))
  \/ (offline f = false
      /\ exists cl url options,
           c = OnlineClient cl /\ NewClient w url options = inl cl
           /\ In (EvNewClient url options) (trace_of (getClient w f ctx serial token))).
Proof.
  unfold_flow. destruct (offline f).
  - cbn [fst]. intros H. inversion H. now left.
  - intros H. right. split; [reflexivity |]. revert H.
    break_flow; cbn [fst snd app In]; intros H; inversion H; subst; clear H;
      do 3 eexists; (split; [reflexivity |]); (split; [eassumption |]); auto 10.
Qed.

End ActionEvents.

(** X15.  The action returns nil exactly when it makes its final
    [ui.Printf] call.  A run that returns nil ends with one call of the
    client, which the client accepted, followed by that [ui.Printf] call,
    and the text of the call is the report format filled with the serial
    number of that request; nothing before them is a call of the client or
    of [ui.Printf].  What [ui.Printf] writes from that text, and whether it
    fails, has no part in the outcome. *)
Theorem action_success_report (w : World) (ctx : CliContext) :
  (forall u, outcome_of (revokeCertificateAction w ctx) = Ok u ->
     exists pre client req tr,
       revokeCertificateAction w ctx
         = (Ok tt, pre ++ [EvRevoke client req tr; EvPrintf (report (Serial req))])
       /\ ClientRevoke w client req tr = None
       /\ forall ev, In ev pre ->
            (forall c r t, ev <> EvRevoke c r t) /\ (forall msg, ev <> EvPrintf msg))
  /\ (forall msg, In (EvPrintf msg) (trace_of (revokeCertificateAction w ctx)) ->
        outcome_of (revokeCertificateAction w ctx) = Ok tt).
Proof.
  destruct (action_shape w ctx)
    as [(Hall & Hno) | (pre & flow & serial & token & c & r & t & _ & Hpre & Hin & Hrun)].
  - split.
    + intros u Hu. now elim (Hno u).
    + intros msg Hin. apply Hall, prior_event_not_last in Hin.
      destruct Hin as [_ Hp]. now elim (Hp msg).
  - apply Revoke_event in Hin. destruct Hin as (_ & _ & Hreq & _).
    assert (Hserial : Serial r = serial) by (rewrite Hreq; reflexivity).
    destruct Hrun as [(Hacc & Hact) | (msg & Hrej & Hact)]; rewrite Hact; split.
    + intros u _. exists pre, c, r, t. rewrite Hserial. repeat split; auto;
        apply prior_event_not_last with (ctx := ctx) (w := w); auto.
    + reflexivity.
    + discriminate.
    + intros m Hm. cbn [trace_of snd] in Hm. apply in_app_or in Hm.
      destruct Hm as [Hm | [Hm | []]]; [| discriminate].
      apply Hpre, prior_event_not_last in Hm. destruct Hm as [_ Hp]. now elim (Hp m).
Qed.

Lemma action_success_report_witness :
  outcome_of (revokeCertificateAction Demo.world Demo.serial_only) = Ok tt
  /\ exists pre client req tr,
       revokeCertificateAction Demo.world Demo.serial_only
         = (Ok tt, pre ++ [EvRevoke client req tr; EvPrintf (report (Serial req))])
       /\ ClientRevoke Demo.world client req tr = None.
Proof.
  split.
  - apply (proj2 (action_success_report Demo.world Demo.serial_only) (report "123")).
    cbn. repeat (first [left; reflexivity | right]).
  - destruct (proj1 (action_success_report Demo.world Demo.serial_only) tt eq_refl)
      as (pre & client & req & tr & H1 & H2 & _).
    exists pre, client, req, tr. split; assumption.
Defined.

(** X16.  The client is called at most once, and the call is the last
    effect but for the report: when the client refuses, the action returns
    the client's error as it is and prints no report; when it accepts, the
    action succeeds. *)
Theorem action_dispatch_once (w : World) (ctx : CliContext)
    (client : CaClient) (req : RevokeRequest) (tr : option Transport) :
  In (EvRevoke client req tr) (trace_of (revokeCertificateAction w ctx)) ->
  exists pre,
    (forall ev, In ev pre ->
       (forall c r t, ev <> EvRevoke c r t) /\ (forall msg, ev <> EvPrintf msg))
    /\ ((ClientRevoke w client req tr = None
         /\ revokeCertificateAction w ctx
              = (Ok tt, pre ++ [EvRevoke client req tr; EvPrintf (report (Serial req))]))
        \/ exists msg,
             ClientRevoke w client req tr = Some msg
             /\ revokeCertificateAction w ctx
                  = (Err (External msg), pre ++ [EvRevoke client req tr])).
Proof.
  intros Hin.
  destruct (action_shape w ctx)
    as [(Hall & _) | (pre & flow & serial & token & c & r & t & _ & Hpre & HinR & Hrun)].
  - apply Hall, prior_event_not_last in Hin. destruct Hin as [Hr _].
    now elim (Hr client req tr).
  - apply Revoke_event in HinR. destruct HinR as (_ & _ & Hreq & _).
    assert (Hserial : Serial r = serial) by (rewrite Hreq; reflexivity).
    assert (Hsame : EvRevoke client req tr = EvRevoke c r t).
    { destruct Hrun as [(_ & Hact) | (msg & _ & Hact)]; rewrite Hact in Hin;
        cbn [trace_of snd] in Hin; apply in_app_or in Hin;
        destruct Hin as [Hin | Hin];
        try (apply Hpre, prior_event_not_last in Hin; destruct Hin as [Hr _];
             now elim (Hr client req tr));
        cbn in Hin; split_or_hyps; congruence. }
    inversion Hsame; subst client req tr. exists pre. split.
    + intros ev Hev. apply prior_event_not_last with (ctx := ctx) (w := w). auto.
    + rewrite Hserial. exact Hrun.
Qed.

Lemma action_dispatch_once_witness :
  revokeCertificateAction Demo.refusing Demo.token_and_serial
    = (Err (External "certificate is already revoked"),
       [EvStat Demo.defaultRoot; EvPrintSelected "CA" "";
        EvNewClient "" [WithRootFile Demo.defaultRoot]]
       ++ [EvRevoke (OnlineClient (mkClient 0)) Demo.request_with_token None]).
Proof.
  destruct (action_dispatch_once Demo.refusing Demo.token_and_serial
              (OnlineClient (mkClient 0)) Demo.request_with_token None)
    as (pre & _ & [(Hacc & _) | (msg & _ & Hact)]).
  - cbn. repeat (first [left; reflexivity | right]).
  - discriminate Hacc.
  - reflexivity.
Defined.

(** X17.  The action generates a token only when neither [--cert], nor
    [--key], nor [--token] is given and there is exactly one positional
    argument; and it asks for the serial number only when, besides, it runs
    online and that one argument is the empty string. *)
Theorem action_token_generation (w : World) (ctx : CliContext) :
  (forall ev,
     In ev (trace_of (revokeCertificateAction w ctx)) ->
     (exists s, ev = EvOfflineGenerateToken s)
     \/ (exists s url root, ev = EvNewTokenFlow s url root)
     \/ (exists msg, ev = EvPrompt msg) ->
     cert_flag ctx = "" /\ key_flag ctx = "" /\ token_flag ctx = "" /\ NArg ctx = 1)
  /\ (forall msg,
        In (EvPrompt msg) (trace_of (revokeCertificateAction w ctx)) ->
        offline_flag ctx = false /\ Args ctx = [""]).
Proof.
  assert (Hgen : forall ev,
            In ev (trace_of (revokeCertificateAction w ctx)) ->
            (exists s, ev = EvOfflineGenerateToken s)
            \/ (exists s url root, ev = EvNewTokenFlow s url root)
            \/ (exists msg, ev = EvPrompt msg) ->
            cert_flag ctx = "" /\ key_flag ctx = "" /\ token_flag ctx = ""
            /\ NArg ctx = 1
            /\ ((exists msg, ev = EvPrompt msg) ->
                offline_flag ctx = false /\ Args_Get0 ctx = "")).
  { intros ev Hin Hkind.
    apply action_event_cases in Hin.
    destruct Hin as [Hin | [(c & r & t & ->) | (m & ->)]].
    - apply prior_event_cases in Hin.
      destruct Hin as [(_ & [-> | (-> & _)]) | [(-> & _) | [Hsel | Hrest]]].
      + destruct Hkind as [(s & H) | [(s & u & r & H) | (m & H)]]; discriminate.
      + destruct Hkind as [(s & H) | [(s & u & r & H) | (m & H)]]; discriminate.
      + destruct Hkind as [(s & H) | [(s & u & r & H) | (m & H)]]; discriminate.
      + destruct Hsel as (Hc & Hk & Ht & Hn & Hwhich). repeat split; auto;
          destruct Hwhich as [(_ & ->) | (Hoff & [(Ha & m & ->) | (s & u & r & ->)])];
          auto; destruct H as (m' & H'); discriminate.
      + exfalso.
        destruct Hrest as [(-> & _) | [(_ & [(u & ->) | (u & o & ->)])
                                      | (_ & [-> | [-> | ->]])]];
          destruct Hkind as [(s & H) | [(s & u' & r & H) | (m & H)]]; discriminate.
    - destruct Hkind as [(s & H) | [(s & u & r' & H) | (m & H)]]; discriminate.
    - destruct Hkind as [(s & H) | [(s & u & r' & H) | (m' & H)]]; discriminate. }
  split.
  - intros ev Hin Hkind. destruct (Hgen ev Hin Hkind) as (Hc & Hk & Ht & Hn & _). auto.
  - intros msg Hin.
    destruct (Hgen _ Hin (or_intror (or_intror (ex_intro _ msg eq_refl))))
      as (_ & _ & _ & Hn & Hp).
    destruct (Hp (ex_intro _ msg eq_refl)) as [Hoff Ha].
    split; [exact Hoff | now apply single_empty_argument].
Qed.

Lemma action_token_generation_witness :
  offline_flag Demo.empty_serial = false /\ Args Demo.empty_serial = [""].
Proof.
  apply (proj2 (action_token_generation Demo.world Demo.empty_serial)
           "What is the Serial Number of the certificate you would like to revoke? (`step certificate inspect foo.cert`)").
  cbn. repeat (first [left; reflexivity | right]).
Defined.

Lemma dispatched_token_cases (w : World) (ctx : CliContext)
    (client : CaClient) (req : RevokeRequest) (tr : option Transport) :
  In (EvRevoke client req tr) (trace_of (revokeCertificateAction w ctx)) ->
  (token_flag ctx <> "" -> OTT req = token_flag ctx /\ tr = None)
  /\ (token_flag ctx = "" -> cert_flag ctx <> "" \/ key_flag ctx <> "" ->
      OTT req = ""
      /\ exists t, tr = Some t /\ outcome_of (mTLSTransport w ctx) = Ok t)
  /\ (token_flag ctx = "" -> cert_flag ctx = "" -> key_flag ctx = "" ->
      exists flow,
        outcome_of (newRevokeFlow w ctx (cert_flag ctx) (key_flag ctx)) = Ok flow
        /\ outcome_of (GenerateToken w flow ctx (Args_Get0 ctx))
             = Ok (OTT req, Serial req)).
Proof.
  intros Hin.
  destruct (action_shape w ctx)
    as [(Hall & _) | (pre & flow & serial & token & c & r & t & Hinp & Hpre & HinR & Hrun)].
  { apply Hall, prior_event_not_last in Hin. destruct Hin as [Hr _].
    now elim (Hr client req tr). }
  assert (Hsame : EvRevoke client req tr = EvRevoke c r t).
  { destruct Hrun as [(_ & Hact) | (msg & _ & Hact)]; rewrite Hact in Hin;
      cbn [trace_of snd] in Hin; apply in_app_or in Hin;
      destruct Hin as [Hin | Hin];
      try (apply Hpre, prior_event_not_last in Hin; destruct Hin as [Hr _];
           now elim (Hr client req tr));
      cbn in Hin; split_or_hyps; congruence. }
  inversion Hsame; subst client req tr. clear Hsame Hin.
  apply Revoke_event in HinR. destruct HinR as (_ & _ & -> & Hempty & Hfull).
  cbn [OTT Serial].
  destruct Hinp as ((_ & _ & Hflow) & Hcase).
  destruct Hcase as [(Hc & Hk & _ & -> & _)
                    | [(Hc & Hk & _ & Hne & -> & _) | (Hc & Hk & _ & Ht & Hgen)]].
  - split; [| split].
    + intros Hne. split; [reflexivity | now apply Hfull].
    + intros He _. split; [exact He | now apply Hempty].
    + intros _ Hc'. contradiction.
  - split; [| split].
    + intros _. split; [reflexivity | now apply Hfull].
    + intros He. contradiction.
    + intros He. contradiction.
  - split; [| split].
    + intros Hne. contradiction.
    + intros _ [Hc' | Hk']; contradiction.
    + intros _ _ _. exists flow. split; assumption.
Qed.

(** X18.  Where the token of a dispatched request comes from.  With
    [--token] the request carries that token and no transport.  Without
    [--token] but with [--cert] or [--key] it carries no token and the
    transport of the mTLS block.  Otherwise it carries the token and the
    serial number that [GenerateToken] returned for the positional
    argument. *)
Theorem action_dispatched_token (w : World) (ctx : CliContext)
    (client : CaClient) (req : RevokeRequest) (tr : option Transport) :
  In (EvRevoke client req tr) (trace_of (revokeCertificateAction w ctx)) ->
  (token_flag ctx <> "" -> OTT req = token_flag ctx /\ tr = None)
  /\ (token_flag ctx = "" -> cert_flag ctx <> "" \/ key_flag ctx <> "" ->
      OTT req = ""
      /\ exists t, tr = Some t /\ outcome_of (mTLSTransport w ctx) = Ok t)
  /\ (token_flag ctx = "" -> cert_flag ctx = "" -> key_flag ctx = "" ->
      exists flow,
        outcome_of (newRevokeFlow w ctx (cert_flag ctx) (key_flag ctx)) = Ok flow
        /\ outcome_of (GenerateToken w flow ctx (Args_Get0 ctx))
             = Ok (OTT req, Serial req)).
Proof. apply dispatched_token_cases. Qed.

Lemma action_dispatched_token_witness :
  OTT Demo.request_mtls = ""
  /\ exists t, Some Demo.transport = Some t
               /\ outcome_of (mTLSTransport Demo.world Demo.mtls) = Ok t.
Proof.
  assert (Hin : In (EvRevoke (OnlineClient (mkClient 0)) Demo.request_mtls
                      (Some Demo.transport))
                  (trace_of (revokeCertificateAction Demo.world Demo.mtls)))
    by (cbn; repeat (first [left; reflexivity | right])).
  assert (Hc : cert_flag Demo.mtls <> "" \/ key_flag Demo.mtls <> "")
    by (left; discriminate).
  exact (proj1 (proj2 (action_dispatched_token Demo.world Demo.mtls _ _ _ Hin))
           eq_refl Hc).
Defined.

(** X19.  Offline the action never builds an online client, never prints a
    CA endpoint, never runs the online token flow and never prompts; the
    client it calls is the offline CA that [newRevokeFlow] loaded from
    [--ca-config]. *)
Theorem action_offline (w : World) (ctx : CliContext) :
  offline_flag ctx = true ->
  (forall ev, In ev (trace_of (revokeCertificateAction w ctx)) ->
     (forall url options, ev <> EvNewClient url options)
     /\ (forall label url, ev <> EvPrintSelected label url)
     /\ (forall s url root, ev <> EvNewTokenFlow s url root)
     /\ (forall msg, ev <> EvPrompt msg))
  /\ (forall client req tr,
        In (EvRevoke client req tr) (trace_of (revokeCertificateAction w ctx)) ->
        exists ca,
          NewOfflineCA w ctx (ca_config_flag ctx) = inl ca
          /\ client = OfflineClient (Some ca)).
Proof.
  intros Hoff. split.
  - intros ev Hin. apply action_event_cases in Hin.
    destruct Hin as [Hin | [(c & r & t & ->) | (m & ->)]];
      [| repeat split; discriminate | repeat split; discriminate].
    apply prior_event_cases in Hin.
    destruct Hin as [(_ & [-> | (-> & _)]) | [(-> & _) | [Hsel | Hrest]]];
      try (repeat split; discriminate).
    + destruct Hsel as (_ & _ & _ & _ & [(_ & ->) | (Hon & _)]);
        [repeat split; discriminate | congruence].
    + destruct Hrest as [(-> & _) | [(Hon & _) | (_ & [-> | [-> | ->]])]];
        try (repeat split; discriminate). congruence.
  - intros client req tr Hin.
    destruct (action_shape w ctx)
      as [(Hall & _) | (pre & flow & serial & token & c & r & t & Hinp & Hpre & HinR & Hrun)].
    { apply Hall, prior_event_not_last in Hin. destruct Hin as [Hr _].
      now elim (Hr client req tr). }
    assert (Hsame : EvRevoke client req tr = EvRevoke c r t).
    { destruct Hrun as [(_ & Hact) | (msg & _ & Hact)]; rewrite Hact in Hin;
        cbn [trace_of snd] in Hin; apply in_app_or in Hin;
        destruct Hin as [Hin | Hin];
        try (apply Hpre, prior_event_not_last in Hin; destruct Hin as [Hr _];
             now elim (Hr client req tr));
        cbn in Hin; split_or_hyps; congruence. }
    inversion Hsame; subst client req tr. clear Hsame Hin.
    apply Revoke_event in HinR. destruct HinR as (Hclient & _).
    destruct Hinp as ((_ & _ & Hflow) & _).
    destruct (newRevokeFlow_Ok w ctx _ _ flow Hflow) as (Hfo & _ & Hoffline).
    destruct (Hoffline Hoff) as (_ & ca & Hca & Hsome & _).
    exists ca. split; [exact Hca |].
    apply getClient_Ok_cases in Hclient. rewrite Hfo, Hoff, Hsome in Hclient.
    destruct Hclient as [(_ & ->) | (Hcontra & _)]; [reflexivity | discriminate].
Qed.

Lemma action_offline_witness :
  exists ca,
    NewOfflineCA Demo.world Demo.offline_serial (ca_config_flag Demo.offline_serial) = inl ca
    /\ OfflineClient (Some (mkOfflineCA 0)) = OfflineClient (Some ca).
Proof.
  apply (proj2 (action_offline Demo.world Demo.offline_serial eq_refl)
           (OfflineClient (Some (mkOfflineCA 0))) Demo.request_with_token None).
  cbn. repeat (first [left; reflexivity | right]).
Defined.

(** X20.  Online the action never loads an offline CA, never checks the
    pair against one and never lets one sign a token; the client it calls
    is one that [ca.NewClient] returned. *)
Theorem action_online (w : World) (ctx : CliContext) :
  offline_flag ctx = false ->
  (forall ev, In ev (trace_of (revokeCertificateAction w ctx)) ->
     (forall cfg, ev <> EvNewOfflineCA cfg)
     /\ (forall c k, ev <> EvVerifyClientCert c k)
     /\ (forall s, ev <> EvOfflineGenerateToken s))
  /\ (forall client req tr,
        In (EvRevoke client req tr) (trace_of (revokeCertificateAction w ctx)) ->
        exists cl url options,
          client = OnlineClient cl /\ NewClient w url options = inl cl).
Proof.
  intros Hon. split.
  - intros ev Hin. apply action_event_cases in Hin.
    destruct Hin as [Hin | [(c & r & t & ->) | (m & ->)]];
      [| repeat split; discriminate | repeat split; discriminate].
    apply prior_event_cases in Hin.
    destruct Hin as [(Hoff & _) | [(-> & _) | [Hsel | Hrest]]];
      [congruence | repeat split; discriminate | |].
    + destruct Hsel as (_ & _ & _ & _ & [(Hoff & _) | (_ & [(_ & m & ->) | (s & u & r & ->)])]);
        [congruence | repeat split; discriminate | repeat split; discriminate].
    + destruct Hrest as [(-> & _) | [(_ & [(u & ->) | (u & o & ->)])
                                    | (_ & [-> | [-> | ->]])]];
        repeat split; discriminate.
  - intros client req tr Hin.
    destruct (action_shape w ctx)
      as [(Hall & _) | (pre & flow & serial & token & c & r & t & Hinp & Hpre & HinR & Hrun)].
    { apply Hall, prior_event_not_last in Hin. destruct Hin as [Hr _].
      now elim (Hr client req tr). }
    assert (Hsame : EvRevoke client req tr = EvRevoke c r t).
    { destruct Hrun as [(_ & Hact) | (msg & _ & Hact)]; rewrite Hact in Hin;
        cbn [trace_of snd] in Hin; apply in_app_or in Hin;
        destruct Hin as [Hin | Hin];
        try (apply Hpre, prior_event_not_last in Hin; destruct Hin as [Hr _];
             now elim (Hr client req tr));
        cbn in Hin; split_or_hyps; congruence. }
    inversion Hsame; subst client req tr. clear Hsame Hin.
    apply Revoke_event in HinR. destruct HinR as (Hclient & _).
    destruct Hinp as ((_ & _ & Hflow) & _).
    destruct (newRevokeFlow_Ok w ctx _ _ flow Hflow) as (Hfo & _).
    apply getClient_Ok_cases in Hclient. rewrite Hfo, Hon in Hclient.
    destruct Hclient as [(Hcontra & _) | (_ & cl & url & options & -> & Hnew & _)];
      [discriminate |].
    now exists cl, url, options.
Qed.

Lemma action_online_witness :
  exists cl url options,
    OnlineClient (mkClient 0) = OnlineClient cl
    /\ NewClient Demo.world url options = inl cl.
Proof.
  apply (proj2 (action_online Demo.world Demo.serial_only eq_refl)
           (OnlineClient (mkClient 0)) Demo.request_with_token None).
  cbn. repeat (first [left; reflexivity | right]).
Defined.

(** X21.  The files the action touches are named by its flags: the bundle
    and the certificate are read from [--cert], the key from [--key], the
    pool from [--root] or else from the default root path; and the only
    path whose existence is checked is the default root path, and only when
    [--root] is not given. *)
Theorem action_files (w : World) (ctx : CliContext) (path : string) :
  (In (EvStat path) (trace_of (revokeCertificateAction w ctx)) ->
   path = GetRootCAPath w /\ root_flag ctx = "")
  /\ (In (EvReadCertificateBundle path) (trace_of (revokeCertificateAction w ctx)) ->
      path = cert_flag ctx /\ path <> "")
  /\ (In (EvReadFile path) (trace_of (revokeCertificateAction w ctx)) ->
      path = cert_flag ctx)
  /\ (In (EvReadKey path) (trace_of (revokeCertificateAction w ctx)) ->
      path = key_flag ctx)
  /\ (In (EvReadCertPool path) (trace_of (revokeCertificateAction w ctx)) ->
      (root_flag ctx <> "" /\ path = root_flag ctx)
      \/ (root_flag ctx = "" /\ path = GetRootCAPath w)).
Proof.
  assert (Hcases : forall ev,
            In ev (trace_of (revokeCertificateAction w ctx)) ->
            (exists p, ev = EvStat p) \/ (exists p, ev = EvReadCertificateBundle p)
            \/ (exists p, ev = EvReadFile p) \/ (exists p, ev = EvReadKey p)
            \/ (exists p, ev = EvReadCertPool p) ->
            (ev = EvStat (GetRootCAPath w) /\ root_flag ctx = "")
            \/ (ev = EvReadCertificateBundle (cert_flag ctx) /\ cert_flag ctx <> "")
            \/ ev = EvReadFile (cert_flag ctx)
            \/ ev = EvReadKey (key_flag ctx)
            \/ ev = EvReadCertPool (if String.eqb (root_flag ctx) ""
                                    then GetRootCAPath w else root_flag ctx)).
  { intros ev Hin Hkind. apply action_event_cases in Hin.
    destruct Hin as [Hin | [(c & r & t & ->) | (m & ->)]].
    - apply prior_event_cases in Hin.
      destruct Hin as [(_ & [-> | (-> & _)]) | [(-> & Hc & _) | [Hsel | Hrest]]].
      + exfalso. repeat destruct Hkind as [(p & H) | Hkind]; try discriminate.
        destruct Hkind as (p & H). discriminate.
      + exfalso. repeat destruct Hkind as [(p & H) | Hkind]; try discriminate.
        destruct Hkind as (p & H). discriminate.
      + auto.
      + exfalso.
        destruct Hsel as (_ & _ & _ & _ & [(_ & ->) | (_ & [(_ & m & ->) | (s & u & r & ->)])]);
          repeat destruct Hkind as [(p & H) | Hkind]; try discriminate;
          destruct Hkind as (p & H); discriminate.
      + destruct Hrest as [(-> & Hr) | [(_ & [(u & ->) | (u & o & ->)])
                                       | (_ & [-> | [-> | ->]])]]; auto 10;
          exfalso; repeat destruct Hkind as [(p & H) | Hkind]; try discriminate;
          destruct Hkind as (p & H); discriminate.
    - exfalso. repeat destruct Hkind as [(p & H) | Hkind]; try discriminate.
      destruct Hkind as (p & H). discriminate.
    - exfalso. repeat destruct Hkind as [(p & H) | Hkind]; try discriminate.
      destruct Hkind as (p & H). discriminate. }
  assert (Hroot : forall p,
            EvReadCertPool p = EvReadCertPool (if String.eqb (root_flag ctx) ""
                                               then GetRootCAPath w else root_flag ctx) ->
            (root_flag ctx <> "" /\ p = root_flag ctx)
            \/ (root_flag ctx = "" /\ p = GetRootCAPath w)).
  { intros p H. inversion H. destruct (String.eqb (root_flag ctx) "") eqn:Hr.
    - apply String.eqb_eq in Hr. auto.
    - apply String.eqb_neq in Hr. auto. }
  split; [| split; [| split; [| split]]]; intros Hin.
  - destruct (Hcases _ Hin) as [(H & Hr) | [(H & Hr) | [H | [H | H]]]];
      [eauto 10 | | | | |]; try discriminate. inversion H; subst. auto.
  - destruct (Hcases _ Hin) as [(H & Hr) | [(H & Hr) | [H | [H | H]]]];
      [eauto 10 | | | | |]; try discriminate. inversion H; subst. auto.
  - destruct (Hcases _ Hin) as [(H & Hr) | [(H & Hr) | [H | [H | H]]]];
      [eauto 10 | | | | |]; try discriminate. now inversion H.
  - destruct (Hcases _ Hin) as [(H & Hr) | [(H & Hr) | [H | [H | H]]]];
      [eauto 10 | | | | |]; try discriminate. now inversion H.
  - destruct (Hcases _ Hin) as [(H & Hr) | [(H & Hr) | [H | [H | H]]]];
      [eauto 10 | | | | |]; try discriminate. now apply Hroot.
Qed.

Lemma action_files_witness :
  Demo.defaultRoot = GetRootCAPath Demo.world /\ root_flag Demo.mtls = "".
Proof.
  apply (proj1 (action_files Demo.world Demo.mtls Demo.defaultRoot)).
  cbn. repeat (first [left; reflexivity | right]).
Defined.

(** X22.  A generated token is made for the serial number that is revoked.
    When the action generated the token of a dispatched request, offline
    the offline CA signed it for the positional argument, which is the
    serial number of the request; online the token flow was run for the
    serial number of the request, which is the positional argument when
    that is not empty and the answer to the prompt otherwise. *)
Theorem action_generated_token_subject (w : World) (ctx : CliContext)
    (client : CaClient) (req : RevokeRequest) (tr : option Transport) :
  In (EvRevoke client req tr) (trace_of (revokeCertificateAction w ctx)) ->
  token_flag ctx = "" -> cert_flag ctx = "" -> key_flag ctx = "" ->
  (offline_flag ctx = true ->
   Serial req = Args_Get0 ctx
   /\ exists ca,
        NewOfflineCA w ctx (ca_config_flag ctx) = inl ca
        /\ OfflineGenerateToken w (Some ca) ctx (Args_Get0 ctx) = inl (OTT req))
  /\ (offline_flag ctx = false ->
      (exists caURL,
         ParseCaURLIfExists w ctx = inl caURL /\ caURL <> ""
         /\ NewTokenFlow w ctx (Serial req) caURL
              (if String.eqb (root_flag ctx) "" then GetRootCAPath w else root_flag ctx)
            = inl (OTT req))
      /\ (Args_Get0 ctx <> "" -> Serial req = Args_Get0 ctx)
      /\ (Args_Get0 ctx = "" -> exists msg, Prompt w msg = inl (Serial req))).
Proof.
  intros Hin Ht Hc Hk.
  destruct (proj2 (proj2 (dispatched_token_cases w ctx client req tr Hin)) Ht Hc Hk)
    as (flow & Hflow & Hgen).
  destruct (newRevokeFlow_Ok w ctx _ _ flow Hflow) as (Hfo & _ & Hoffline).
  destruct (GenerateToken_Ok w flow ctx _ _ _ Hgen) as [Hoff Hon].
  rewrite Hfo in Hoff, Hon. split.
  - intros Ho. destruct (Hoff Ho) as [Hs Htok].
    destruct (Hoffline Ho) as (_ & ca & Hca & Hsome & _).
    split; [exact Hs |]. exists ca. split; [exact Hca |]. now rewrite <- Hsome.
  - intros Ho. destruct (Hon Ho) as (caURL & Hurl & Hne & Hflow' & _ & Hsame & Hprompt).
    split; [now exists caURL |]. split; [exact Hsame |].
    intros He. destruct (Hprompt He) as (msg & Hp & _). now exists msg.
Qed.

Lemma action_generated_token_subject_witness :
  exists caURL,
    ParseCaURLIfExists Demo.world Demo.empty_serial = inl caURL /\ caURL <> ""
    /\ NewTokenFlow Demo.world Demo.empty_serial (Serial Demo.request_with_token) caURL
         (if String.eqb (root_flag Demo.empty_serial) "" then GetRootCAPath Demo.world
          else root_flag Demo.empty_serial)
       = inl (OTT Demo.request_with_token).
Proof.
  assert (Hin : In (EvRevoke (OnlineClient (mkClient 0)) Demo.request_with_token None)
                  (trace_of (revokeCertificateAction Demo.world Demo.empty_serial)))
    by (cbn; repeat (first [left; reflexivity | right])).
  exact (proj1 (proj2 (action_generated_token_subject Demo.world Demo.empty_serial
                         _ _ _ Hin eq_refl eq_refl eq_refl) eq_refl)).
Defined.
